(** * Zabbix inventory manager: cleaning, identifiers, hostnames, sync loop

    A shallow embedding of [inventory.py].  Python [str] values are Rocq
    [string]s (characters are the code points 0..255), Python [int]
    counters are [nat], the [hostname_counters] dict is a [gmap string nat],
    a pandas cell is an [option string] ([None] is NaN), and every remote
    call is replaced by the reply it receives. *)

From Stdlib Require Import Strings.String Strings.Ascii Numbers.DecimalString.
From Stdlib Require Import Init.Decimal Arith.PeanoNat Numbers.DecimalNat.
From stdpp Require Import gmap strings list.

Local Open Scope string_scope.
Local Open Scope list_scope.

(** ** Python string primitives used by the program *)

Module Py.

Definition between (lo hi n : nat) : bool :=
  (Nat.leb lo n && Nat.leb n hi)%bool.

(** [str.isspace] on one character, for code points below 256:
    TAB..CR, FS..US, SPACE, NEL and NBSP. *)
Definition isspace (c : ascii) : bool :=
  let n := nat_of_ascii c in
  (between 9 13 n || between 28 32 n || Nat.eqb n 133 || Nat.eqb n 160)%bool.

(** [str.isalnum] on one character, for code points below 256: the ASCII
    digits and letters, and the Latin-1 letters, superscript digits and
    vulgar fractions. *)
Definition isalnum (c : ascii) : bool :=
  let n := nat_of_ascii c in
  (between 48 57 n || between 65 90 n || between 97 122 n
   || Nat.eqb n 170 || between 178 179 n || Nat.eqb n 181
   || between 185 186 n || between 188 190 n
   || between 192 214 n || between 216 246 n || between 248 255 n)%bool.

(** Truthiness of a [str]: non-empty. *)
Definition truthy (s : string) : bool :=
  match s with "" => false | String _ _ => true end.

Fixpoint lstrip (s : string) : string :=
  match s with
  | "" => ""
  | String c s' => if isspace c then lstrip s' else s
  end.

Fixpoint rstrip (s : string) : string :=
  match s with
  | "" => ""
  | String c s' =>
      match rstrip s' with
      | "" => if isspace c then "" else String c ""
      | r => String c r
      end
  end.

(** [s.strip()] *)
Definition strip (s : string) : string := rstrip (lstrip s).

(** The word finished so far, if any, when the scan meets a separator. *)
Definition emit (cur : string) : list string :=
  match cur with "" => [] | _ => [cur] end.

(** [s.split()] scans left to right; [cur] is the word being read. *)
Fixpoint split_go (cur : string) (s : string) : list string :=
  match s with
  | "" => emit cur
  | String c s' =>
      if isspace c then emit cur ++ split_go "" s'
      else split_go (cur +:+ String c "") s'
  end.

(** [s.split()] with no argument: maximal runs of non-whitespace. *)
Definition split (s : string) : list string := split_go "" s.

(** [sep.join(ws)] *)
Fixpoint join (sep : string) (ws : list string) : string :=
  match ws with
  | [] => ""
  | [w] => w
  | w :: ws' => w +:+ sep +:+ join sep ws'
  end.

Fixpoint drop_chars (k : nat) (s : string) : string :=
  match k, s with
  | O, _ => s
  | S k', String _ s' => drop_chars k' s'
  | S _, "" => ""
  end.

(** [s[-n:]] for n > 0: the last [n] characters, or all of [s] when it is
    shorter. *)
Definition last_chars (n : nat) (s : string) : string :=
  drop_chars (String.length s - n) s.

(** [s.replace(' ', '-')] *)
Fixpoint replace_space_hyphen (s : string) : string :=
  match s with
  | "" => ""
  | String c s' =>
      String (if Ascii.eqb c " " then "-"%char else c) (replace_space_hyphen s')
  end.

Fixpoint filter_chars (keep : ascii -> bool) (s : string) : string :=
  match s with
  | "" => ""
  | String c s' =>
      if keep c then String c (filter_chars keep s') else filter_chars keep s'
  end.

(** [str(n)] for a non-negative [int]. *)
Definition str_of_nat (n : nat) : string :=
  NilEmpty.string_of_uint (Nat.to_uint n).

Fixpoint zeros (k : nat) : string :=
  match k with O => "" | S k' => String "0" (zeros k') end.

(** [s.zfill(width)]: pad on the left with '0', after a leading sign. *)
Definition zfill (width : nat) (s : string) : string :=
  match width - String.length s with
  | O => s
  | pad =>
      match s with
      | String c r =>
          if Ascii.eqb c "+" || Ascii.eqb c "-"
          then String c (zeros pad +:+ r)
          else zeros pad +:+ s
      | "" => zeros pad
      end
  end.

End Py.

(** ** The manager: fallback counter and hostname registry *)

Record Manager := {
  counter : nat;
  hostname_counters : gmap string nat
}.

(** [__init__]: [self.counter = 1], [self.hostname_counters = {}]. *)
Definition new_manager : Manager :=
  {| counter := 1; hostname_counters := ∅ |}.

(** [generate_unique_hostname]: returns the hostname and the updated
    manager. *)
Definition generate_unique_hostname (base_hostname : string) (self : Manager)
  : string * Manager :=
  match hostname_counters self !! base_hostname with
  | None =>
      (base_hostname,
       {| counter := counter self;
          hostname_counters := <[base_hostname := 1]> (hostname_counters self) |})
  | Some count =>
      (base_hostname +:+ "-" +:+ Py.str_of_nat count,
       {| counter := counter self;
          hostname_counters :=
            <[base_hostname := count + 1]> (hostname_counters self) |})
  end.

(** [generate_identifier]: returns the identifier and the updated manager. *)
Definition generate_identifier (serial_number mac_address : string)
    (self : Manager) : string * Manager :=
  if Py.truthy serial_number && negb (String.eqb serial_number "UNKNOWN") then
    ("SN" +:+ Py.last_chars 4 (Py.strip serial_number), self)
  else if Py.truthy mac_address && negb (String.eqb mac_address "UNKNOWN") then
    ("MC" +:+ Py.last_chars 4 (Py.strip mac_address), self)
  else
    ("DEV" +:+ Py.zfill 4 (Py.str_of_nat (counter self)),
     {| counter := counter self + 1;
        hostname_counters := hostname_counters self |}).

(** ** Record cleaner, first stage: [clean_csv]

    The input is what [csv.reader] yields: one list of cells per line. *)

(** [any(cell.strip() for cell in row)] *)
Definition any_nonblank (row : list string) : bool :=
  existsb (fun cell => Py.truthy (Py.strip cell)) row.

(** The loop over [csv_reader]: keep a row that has a non-blank cell, strip
    its cells and keep the first 8. *)
Fixpoint clean_rows (rows : list (list string)) : list (list string) :=
  match rows with
  | [] => []
  | row :: rest =>
      if any_nonblank row
      then take 8 (map Py.strip row) :: clean_rows rest
      else clean_rows rest
  end.

(** A pandas frame of [object] columns: the column labels and the rows. *)
Record DataFrame := {
  columns : list string;
  frame_rows : list (list (option string))
}.

Definition max_width (data : list (list string)) : nat :=
  foldr (fun row w => Nat.max (length row) w) 0 data.

(** Short rows are filled with missing values up to the frame's width. *)
Definition pad_row (w : nat) (row : list string) : list (option string) :=
  map Some row ++ replicate (w - length row) None.

(** [pd.DataFrame(data, columns=cols)] for a list of lists: the width is
    the longest row, and it must be the number of labels (pandas raises
    otherwise); no data gives an empty frame. *)
Definition new_frame (data : list (list string)) (cols : list string)
  : option DataFrame :=
  match data with
  | [] => Some {| columns := cols; frame_rows := [] |}
  | _ :: _ =>
      let w := max_width data in
      if Nat.eqb w (length cols)
      then Some {| columns := cols; frame_rows := map (pad_row w) data |}
      else None
  end.

(** [df.apply(lambda x: x.str.strip() ...)]: strings are stripped, missing
    values stay missing. *)
Definition strip_frame (df : DataFrame) : DataFrame :=
  {| columns := columns df;
     frame_rows := map (map (option_map Py.strip)) (frame_rows df) |}.

Definition is_missing (cell : option string) : bool :=
  match cell with None => true | Some _ => false end.

(** [df.dropna(how='all')] *)
Definition dropna_all (df : DataFrame) : DataFrame :=
  {| columns := columns df;
     frame_rows :=
       List.filter (fun row => negb (forallb is_missing row)) (frame_rows df) |}.

(** [clean_csv]: the frame that is written to the output file and returned;
    [None] when an exception is caught (no surviving row, or a width that
    does not fit the header). *)
Definition clean_csv (raw : list (list string)) : option DataFrame :=
  match clean_rows raw with
  | [] => None
  | header :: data =>
      match new_frame data (take 8 header) with
      | None => None
      | Some df => Some (dropna_all (strip_frame df))
      end
  end.

(** ** Record cleaner, second stage: [read_inventory_csv] *)

(** The texts that [pd.read_csv] reads as a missing value by default. *)
Definition na_values : list string :=
  [""; "#N/A"; "#N/A N/A"; "#NA"; "-1.#IND"; "-1.#QNAN"; "-NaN"; "-nan";
   "1.#IND"; "1.#QNAN"; "<NA>"; "N/A"; "NA"; "NULL"; "NaN"; "None"; "n/a";
   "nan"; "null"].

Definition is_na_value (s : string) : bool :=
  existsb (String.eqb s) na_values.

(** One cell through [to_csv] and back through [read_csv(dtype=str)]: a
    missing value is written as the empty text, and a text among
    [na_values] is read as missing. *)
Definition read_cell (cell : option string) : option string :=
  let text := match cell with None => "" | Some s => s end in
  if is_na_value text then None else Some text.

(** [pd.read_csv(file_path, usecols=range(8), dtype=str)] on the file that
    [to_csv(index=False)] wrote from [file]: it raises when the file has
    fewer than 8 columns. *)
Definition read_csv8 (file : DataFrame) : option (list (list (option string))) :=
  if Nat.leb 8 (length (columns file))
  then Some (map (fun row => map read_cell (take 8 row)) (frame_rows file))
  else None.

(** The 8 fields, under the labels assigned to [df.columns]. *)
Record InventoryRecord := {
  Sl_no : string;
  Team : string;
  Device_model : string;
  S_N : string;
  MAC_ID : string;
  Condition : string;
  Assigned_to : string;
  Owner : string
}.

Definition column_names : list string :=
  ["Sl.no"; "Team"; "Device model"; "S/N"; "MAC ID"; "Condition";
   "Assigned to"; "Owner"].

Definition record_cells (r : InventoryRecord) : list string :=
  [Sl_no r; Team r; Device_model r; S_N r; MAC_ID r; Condition r;
   Assigned_to r; Owner r].

(** [clean_value]: NaN becomes [''], any other value has its whitespace
    runs collapsed to one space and its ends trimmed. *)
Definition clean_value (value : option string) : string :=
  match value with
  | None => ""
  | Some s => Py.join " " (Py.split s)
  end.

(** [lambda x: x if x else default] *)
Definition or_default (default x : string) : string :=
  if Py.truthy x then x else default.

(** The cell of a row in column [i] (missing when the row is too short). *)
Definition cell (row : list (option string)) (i : nat) : option string :=
  match row !! i with Some c => c | None => None end.

(** One row through the column-wise passes of [read_inventory_csv]:
    [clean_value] on every column, then the defaults. *)
Definition clean_record (row : list (option string)) : InventoryRecord :=
  {| Sl_no := clean_value (cell row 0);
     Team := or_default "Inventory" (clean_value (cell row 1));
     Device_model := or_default "Unknown Device" (clean_value (cell row 2));
     S_N := or_default "UNKNOWN" (clean_value (cell row 3));
     MAC_ID := or_default "UNKNOWN" (clean_value (cell row 4));
     Condition := or_default "Unknown" (clean_value (cell row 5));
     Assigned_to := or_default "Unassigned" (clean_value (cell row 6));
     Owner := or_default "Unassigned" (clean_value (cell row 7)) |}.

(** [any(row.str.strip() != '')] *)
Definition any_nonempty (r : InventoryRecord) : bool :=
  existsb (fun x => Py.truthy (Py.strip x)) (record_cells r).

(** [read_inventory_csv]: the records of the returned frame, [None] when
    an exception is caught. *)
Definition read_inventory_csv (file : DataFrame) : option (list InventoryRecord) :=
  match read_csv8 file with
  | None => None
  | Some rows => Some (List.filter any_nonempty (map clean_record rows))
  end.

(** The two stages as [main] chains them: [clean_csv] writes the cleaned
    file, [read_inventory_csv] reads it back. *)
Definition cleaning (raw : list (list string)) : option (list InventoryRecord) :=
  match clean_csv raw with
  | None => None
  | Some df => read_inventory_csv df
  end.

(** The cleaned file that [clean_csv] wrote from [df], as [csv.reader]
    yields it: the header line, then one line per row, a missing value
    being written as the empty text. *)
Definition written_rows (df : DataFrame) : list (list string) :=
  columns df
  :: map (map (fun c => match c with None => "" | Some x => x end))
       (frame_rows df).

(** The frame of cleaned records saved with [to_csv(index=False)], as
    [csv.reader] yields it: the header line, then one line per record. *)
Definition to_csv_rows (records : list InventoryRecord) : list (list string) :=
  column_names :: map record_cells records.

(** ** Remote directory client

    A remote call is replaced by what comes back: an exception raised
    somewhere inside the [try] block (transport error, a body that is not
    JSON, a missing key), or a status code with the [result] member of the
    JSON body, if it has one. *)

Inductive Response (A : Type) : Type :=
| Raised : Response A
| Status : nat -> option A -> Response A.

Arguments Raised {A}.
Arguments Status {A} code result.

(** The replies one record receives: [hostgroup.get] (the ids of the groups
    found), [hostgroup.create] (the ids created) and [host.create]. *)
Record Remote := {
  hostgroup_get : Response (list string);
  hostgroup_create : Response (list string);
  host_create : Response unit
}.

(** [get_zabbix_token] *)
Definition get_zabbix_token (login : Response string) : option string :=
  match login with
  | Raised => None
  | Status code result =>
      if Nat.eqb code 200 then result else None
  end.

(** [create_group]: [result['result']['groupids'][0]] *)
Definition create_group (group_name : string) (net : Remote) : option string :=
  match hostgroup_create net with
  | Raised => None
  | Status code result =>
      if Nat.eqb code 200 then
        match result with
        | Some (group_id :: _) => Some group_id
        | Some [] => None
        | None => None
        end
      else None
  end.

(** [get_group_id]: the first group found, else the group is created. *)
Definition get_group_id (group_name : string) (net : Remote) : option string :=
  match hostgroup_get net with
  | Raised => None
  | Status code result =>
      if Nat.eqb code 200 then
        match result with
        | Some (group_id :: _) => Some group_id
        | Some [] | None => create_group group_name net
        end
      else None
  end.

(** [c.isalnum() or c in '-_.'] *)
Definition hostname_char (c : ascii) : bool :=
  Py.isalnum c || Ascii.eqb c "-" || Ascii.eqb c "_" || Ascii.eqb c ".".

(** The base hostname of [create_or_update_host]: model and identifier
    joined by a hyphen, spaces of the model turned into hyphens, then only
    the characters valid in a hostname. *)
Definition base_hostname_of (host_data : InventoryRecord) (identifier : string)
  : string :=
  let base_hostname :=
    Py.replace_space_hyphen (Device_model host_data) +:+ "-" +:+ identifier in
  Py.filter_chars hostname_char base_hostname.

(** The first statements of [create_or_update_host], up to the call of
    [generate_unique_hostname]: identifier, base hostname, hostname. *)
Definition allocate_hostname (host_data : InventoryRecord) (self : Manager)
  : string * Manager :=
  let '(identifier, self1) :=
    generate_identifier (S_N host_data) (MAC_ID host_data) self in
  let base_hostname := base_hostname_of host_data identifier in
  generate_unique_hostname base_hostname self1.

(** [create_or_update_host]: the boolean returned and the updated manager. *)
Definition create_or_update_host (host_data : InventoryRecord) (net : Remote)
    (self : Manager) : bool * Manager :=
  let '(hostname, self') := allocate_hostname host_data self in
  match get_group_id (Py.strip (Team host_data)) net with
  | None => (false, self')
  | Some group_id =>
      if negb (Py.truthy group_id) then (false, self')
      else
        match host_create net with
        | Raised => (false, self')
        | Status code result =>
            if Nat.eqb code 200 then
              match result with
              | Some _ => (true, self')
              | None => (false, self')
              end
            else (false, self')
        end
  end.

(** ** Sync orchestrator *)

Record Summary := {
  success_count : nat;
  failed_count : nat;
  total_count : nat
}.

(** The loop of [main] over [inventory_data.iterrows()]; [net i] holds the
    replies that the record at position [i] receives. *)
Fixpoint process_devices (inventory_data : list InventoryRecord) (i : nat)
    (net : nat -> Remote) (manager : Manager) (success failed : nat)
  : nat * nat * Manager :=
  match inventory_data with
  | [] => (success, failed, manager)
  | row :: rest =>
      let '(ok, manager') := create_or_update_host row (net i) manager in
      if ok
      then process_devices rest (S i) net manager' (success + 1) failed
      else process_devices rest (S i) net manager' success (failed + 1)
  end.

(** The counting part of [main], from the cleaned records on. *)
Definition sync (inventory_data : list InventoryRecord) (net : nat -> Remote)
  : Summary * Manager :=
  let '(success, failed, manager) :=
    process_devices inventory_data 0 net new_manager 0 0 in
  ({| success_count := success; failed_count := failed;
      total_count := length inventory_data |}, manager).

(** [main]: [None] when the run returns before the loop (cleaning failed,
    no token, or the cleaned file cannot be read). *)
Definition main (raw : list (list string)) (login : Response string)
    (net : nat -> Remote) : option Summary :=
  match clean_csv raw with
  | None => None
  | Some cleaned_df =>
      match get_zabbix_token login with
      | None => None
      | Some auth_token =>
          if negb (Py.truthy auth_token) then None
          else
            match read_inventory_csv cleaned_df with
            | None => None
            | Some inventory_data => Some (fst (sync inventory_data net))
            end
      end
  end.

(** The hostnames a run allocates, record by record (whatever the remote
    answers: see [create_or_update_host]). *)
Fixpoint allocated_hostnames (inventory_data : list InventoryRecord)
    (manager : Manager) : list string :=
  match inventory_data with
  | [] => []
  | row :: rest =>
      let '(hostname, manager') := allocate_hostname row manager in
      hostname :: allocated_hostnames rest manager'
  end.

(** The manager a run is left with when only the allocations are made. *)
Fixpoint allocation_state (inventory_data : list InventoryRecord)
    (manager : Manager) : Manager :=
  match inventory_data with
  | [] => manager
  | row :: rest => allocation_state rest (snd (allocate_hostname row manager))
  end.

(** What [create_or_update_host] returns for each record of the loop, in
    order. *)
Fixpoint outcomes (inventory_data : list InventoryRecord) (i : nat)
    (net : nat -> Remote) (manager : Manager) : list bool :=
  match inventory_data with
  | [] => []
  | row :: rest =>
      let '(ok, manager') := create_or_update_host row (net i) manager in
      ok :: outcomes rest (S i) net manager'
  end.

(** [host.create] answered with status 200 and a [result] member. *)
Definition accepted (reply : Response unit) : bool :=
  match reply with
  | Status code (Some _) => Nat.eqb code 200
  | Status _ None | Raised => false
  end.

(** The replies of one record let it through: a group id that is not
    empty, and an accepted [host.create]. *)
Definition delivered (host_data : InventoryRecord) (net : Remote) : bool :=
  match get_group_id (Py.strip (Team host_data)) net with
  | Some group_id => Py.truthy group_id && accepted (host_create net)
  | None => false
  end.

(** A sequence of requests to the hostname allocator. *)
Fixpoint allocate_all (bases : list string) (manager : Manager)
  : list string * Manager :=
  match bases with
  | [] => ([], manager)
  | base :: rest =>
      let '(hostname, manager') := generate_unique_hostname base manager in
      let '(hostnames, manager'') := allocate_all rest manager' in
      (hostname :: hostnames, manager'')
  end.

(** A sequence of calls of the identifier generator, one per
    (serial, MAC) pair. *)
Fixpoint identify_all (devices : list (string * string)) (manager : Manager)
  : list string * Manager :=
  match devices with
  | [] => ([], manager)
  | (serial, mac) :: rest =>
      let '(identifier, manager') := generate_identifier serial mac manager in
      let '(identifiers, manager'') := identify_all rest manager' in
      (identifier :: identifiers, manager'')
  end.

(** ** The requests a run sends

    Each [requests.post] of the program, with the method and the
    parameters of its payload, in the order they are made. *)

(** The parameters of [host.create]. *)
Record HostPayload := {
  host : string;
  groupid : string;
  inventory_type : string;
  serialno_a : string;
  macaddress_a : string;
  location : string;
  notes : string;
  site_notes : string;
  contact : string
}.

Inductive Request : Type :=
| UserLogin (username password : string)
| HostgroupGet (name : string)
| HostgroupCreate (name : string)
| HostCreate (payload : HostPayload)
| HostGet (hostname : string).

(** [get_host]: the id of the first host found, if any. *)
Definition get_host (reply : Response (list string)) : option string :=
  match reply with
  | Raised => None
  | Status code result =>
      if Nat.eqb code 200 then
        match result with
        | Some (hostid :: _) => Some hostid
        | Some [] | None => None
        end
      else None
  end.

(** What [get_host] posts. *)
Definition get_host_sent (hostname : string) : list Request :=
  [HostGet hostname].

(** What [create_group] posts. *)
Definition create_group_sent (group_name : string) : list Request :=
  [HostgroupCreate group_name].

(** What [get_group_id] posts: the lookup, then the creation when the
    lookup answered 200 without a group. *)
Definition get_group_id_sent (group_name : string) (net : Remote)
  : list Request :=
  HostgroupGet group_name
  :: match hostgroup_get net with
     | Raised => []
     | Status code result =>
         if Nat.eqb code 200 then
           match result with
           | Some (_ :: _) => []
           | Some [] | None => create_group_sent group_name
           end
         else []
     end.

(** The payload that [create_or_update_host] builds for [host.create]. *)
Definition host_payload (host_data : InventoryRecord) (hostname group_id : string)
  : HostPayload :=
  {| host := hostname;
     groupid := group_id;
     inventory_type := Device_model host_data;
     serialno_a := S_N host_data;
     macaddress_a := MAC_ID host_data;
     location := Assigned_to host_data;
     notes := Condition host_data;
     site_notes := Team host_data;
     contact := Owner host_data |}.

(** What [create_or_update_host] posts: the requests of the group
    resolution, then [host.create] when a group id came back. *)
Definition create_or_update_host_sent (host_data : InventoryRecord)
    (net : Remote) (self : Manager) : list Request :=
  let '(hostname, _) := allocate_hostname host_data self in
  let group_name := Py.strip (Team host_data) in
  get_group_id_sent group_name net
  ++ match get_group_id group_name net with
     | None => []
     | Some group_id =>
         if negb (Py.truthy group_id) then []
         else [HostCreate (host_payload host_data hostname group_id)]
     end.

(** What the loop of [main] posts, record after record. *)
Fixpoint process_devices_sent (inventory_data : list InventoryRecord) (i : nat)
    (net : nat -> Remote) (manager : Manager) : list Request :=
  match inventory_data with
  | [] => []
  | row :: rest =>
      create_or_update_host_sent row (net i) manager
      ++ process_devices_sent rest (S i) net
           (snd (create_or_update_host row (net i) manager))
  end.

(** ** Spreadsheet conversion: [excel_to_csv]

    A workbook is the list of its sheets, each with its name and its rows
    of cell values; an empty cell is [None].  The type of the other values
    and their text [render] (what [csv.writer] writes for them) are
    parameters.  A CSV file is held as the rows [csv.reader] reads back
    from it. *)

(** What [csv.writer] writes for one cell: nothing for [None]. *)
Definition cell_text {V : Type} (render : V -> string) (value : option V)
  : string :=
  match value with
  | None => ""
  | Some v => render v
  end.

(** The rows written for one sheet. *)
Definition sheet_rows {V : Type} (render : V -> string)
    (rows : list (list (option V))) : list (list string) :=
  map (map (cell_text render)) rows.

(** [excel_to_csv]: every sheet is written to the file named after it,
    in workbook order, over the files that exist. *)
Fixpoint excel_to_csv {V : Type} (render : V -> string)
    (sheets : list (string * list (list (option V))))
    (files : gmap string (list (list string)))
  : gmap string (list (list string)) :=
  match sheets with
  | [] => files
  | (sheet_name, rows) :: rest =>
      excel_to_csv render rest
        (<[sheet_name +:+ ".csv" := sheet_rows render rows]> files)
  end.

(** ** Predicates used in the statements *)

(** A string without whitespace. *)
Fixpoint no_space (s : string) : bool :=
  match s with
  | "" => true
  | String c s' => negb (Py.isspace c) && no_space s'
  end.

(** A word of [split]: not empty, no whitespace. *)
Definition is_word (w : string) : bool := Py.truthy w && no_space w.

(** A normalised text: stripping it, or cleaning it again, changes
    nothing. *)
Definition normalised (x : string) : Prop :=
  Py.strip x = x /\ clean_value (Some x) = x.

(** A serial number or MAC address that the identifier generator does not
    use: empty, or the sentinel. *)
Definition lacking (x : string) : bool :=
  negb (Py.truthy x) || String.eqb x "UNKNOWN".

(** A text made of whitespace only (the empty text included). *)
Fixpoint whitespace_only (s : string) : bool :=
  match s with
  | "" => true
  | String c s' => Py.isspace c && whitespace_only s'
  end.

(** A row of [csv.reader] whose cells are all empty or whitespace-only. *)
Definition blank_row (row : list string) : bool :=
  forallb whitespace_only row.

(** A row as the first stage leaves it: stripped cells, at most 8 of them,
    one of them not blank. *)
Definition tidy_row (row : list string) : Prop :=
  Forall (fun x => Py.strip x = x) row /\ length row <= 8
  /\ any_nonblank row = true.

(** A raw row that has a non-blank cell has one among its first 8 cells. *)
Definition content_in_first_8 (row : list string) : Prop :=
  any_nonblank row = true -> any_nonblank (take 8 row) = true.

(** A field that the CSV reader gives back as it was written: the empty
    text (read as missing, cleaned to the empty text again) or a text
    that is not a missing-value marker. *)
Definition survives_reading (x : string) : Prop :=
  x = "" \/ is_na_value x = false.

(** A line of the cleaned file for a row of a frame of width [w]: the
    cells of the row, then empty texts for the missing values. *)
Definition pad_text (w : nat) (row : list string) : list string :=
  row ++ replicate (w - length row) "".

(** Every character of a text satisfies [p]. *)
Fixpoint all_chars (p : ascii -> bool) (s : string) : bool :=
  match s with
  | "" => true
  | String c s' => p c && all_chars p s'
  end.

(** An ASCII decimal digit. *)
Definition is_digit (c : ascii) : bool :=
  Py.between 48 57 (nat_of_ascii c).

(** What is left of [s] after the prefix [p], if [s] starts with it. *)
Fixpoint after_prefix (p s : string) : option string :=
  match p, s with
  | "", _ => Some s
  | String a p', String b s' =>
      if Ascii.eqb a b then after_prefix p' s' else None
  | String _ _, "" => None
  end.

(** [b] is [b'] followed by a hyphen and decimal digits, the form of the
    hostnames that the allocator derives from the base [b']. *)
Definition suffixed_form (b b' : string) : bool :=
  match after_prefix b' b with
  | Some (String c d) => Ascii.eqb c "-" && Py.truthy d && all_chars is_digit d
  | Some "" | None => false
  end.

(** No requested base has the form of a hostname derived from another
    requested base. *)
Definition no_suffixed_base (bases : list string) : bool :=
  forallb (fun b => forallb (fun b' => negb (suffixed_form b b')) bases) bases.

(** A row that the loop of [clean_csv] hands over: stripped cells, at
    least one and at most 8 of them. *)
Definition kept_row (row : list string) : Prop :=
  Forall (fun x => Py.strip x = x) row /\ 1 <= length row <= 8.

(** The text cells of a frame row are stripped. *)
Definition stripped_cells (row : list (option string)) : Prop :=
  Forall (fun c => match c with Some x => Py.strip x = x | None => True end) row.

(** The hostnames of the [host.create] requests among [sent]. *)
Fixpoint created_hosts (sent : list Request) : list string :=
  match sent with
  | [] => []
  | HostCreate payload :: rest => host payload :: created_hosts rest
  | _ :: rest => created_hosts rest
  end.

(** A request that the per-record flow makes: a group lookup, a group
    creation or a host creation (no login, no host lookup). *)
Definition record_request (r : Request) : bool :=
  match r with
  | HostgroupGet _ | HostgroupCreate _ | HostCreate _ => true
  | UserLogin _ _ | HostGet _ => false
  end.

(** The default of each column, in column order; the sequence number has
    none, its empty cell stays the empty text. *)
Definition column_defaults : list string :=
  [""; "Inventory"; "Unknown Device"; "UNKNOWN"; "UNKNOWN"; "Unknown";
   "Unassigned"; "Unassigned"].

(** The fields of a record that have a default. *)
Definition defaulted_cells (r : InventoryRecord) : list string :=
  [Team r; Device_model r; S_N r; MAC_ID r; Condition r; Assigned_to r;
   Owner r].

(** A (serial, MAC) pair for which the generator falls back on the
    counter. *)
Definition fallback_device (d : string * string) : bool :=
  lacking (fst d) && lacking (snd d).

(** How many of the requests [bases] ask for [base]. *)
Definition occurrences (base : string) (bases : list string) : nat :=
  length (List.filter (String.eqb base) bases).

(** The count the registry holds for [base]; an absent key counts 0. *)
Definition seen (self : Manager) (base : string) : nat :=
  match hostname_counters self !! base with
  | Some count => count
  | None => 0
  end.

(** ** Sample inputs *)

(** A fully described device, and the file that holds it. *)
Definition sample_record : InventoryRecord :=
  {| Sl_no := "1"; Team := "Net Ops"; Device_model := "Router";
     S_N := "ABC12345"; MAC_ID := "AA:BB:CC:DD:EE:FF"; Condition := "Good";
     Assigned_to := "Lab"; Owner := "Ann" |}.

Definition sample_raw : list (list string) :=
  [column_names;
   ["1"; "Net Ops"; "Router"; "ABC12345"; "AA:BB:CC:DD:EE:FF"; "Good"; "Lab"; "Ann"]].

(** Three devices of model "R": two with serial "1", one with serial "1-1". *)
Definition colliding_raw : list (list string) :=
  [column_names;
   ["1"; "Net"; "R"; "1"; ""; "Good"; "Lab"; "Ann"];
   ["2"; "Net"; "R"; "1"; ""; "Good"; "Lab"; "Ann"];
   ["3"; "Net"; "R"; "1-1"; ""; "Good"; "Lab"; "Ann"]].

(** A device whose sequence-number cell is empty. *)
Definition unnumbered_raw : list (list string) :=
  [column_names;
   [""; "Net"; "Router"; "ABC12345"; ""; "Good"; "Lab"; "Ann"]].

(** Its record. *)
Definition unnumbered_record : InventoryRecord :=
  {| Sl_no := ""; Team := "Net"; Device_model := "Router";
     S_N := "ABC12345"; MAC_ID := "UNKNOWN"; Condition := "Good";
     Assigned_to := "Lab"; Owner := "Ann" |}.

(** Replies of a remote that fails every call, and of one that accepts
    every call. *)
Definition remote_down : Remote :=
  {| hostgroup_get := Raised; hostgroup_create := Raised; host_create := Raised |}.

Definition remote_up : Remote :=
  {| hostgroup_get := Status 200 (Some ["7"]);
     hostgroup_create := Raised;
     host_create := Status 200 (Some tt) |}.

(** A device without serial number and MAC address. *)
Definition anonymous_record : InventoryRecord :=
  {| Sl_no := "1"; Team := "Net"; Device_model := "Router";
     S_N := "UNKNOWN"; MAC_ID := "UNKNOWN"; Condition := "Good";
     Assigned_to := "Lab"; Owner := "Ann" |}.

(** A remote that is down for the record at position 1 only. *)
Definition flaky_net (i : nat) : Remote :=
  if Nat.eqb i 1 then remote_down else remote_up.

(** A device of model "Router" and serial "ABC12345" in a given team. *)
Definition router_of_team (team : string) : InventoryRecord :=
  {| Sl_no := "1"; Team := team; Device_model := "Router";
     S_N := "ABC12345"; MAC_ID := "UNKNOWN"; Condition := "Good";
     Assigned_to := "Lab"; Owner := "Ann" |}.

(** Two device lines; the only text of the first stands in a ninth cell. *)
Definition overflow_raw : list (list string) :=
  [column_names;
   [""; ""; ""; ""; ""; ""; ""; ""; "spare"];
   ["1"; "Net"; "Router"; "ABC12345"; ""; "Good"; "Lab"; "Ann"]].

(** The record of a line without any text in its first 8 cells. *)
Definition default_record : InventoryRecord :=
  {| Sl_no := ""; Team := "Inventory"; Device_model := "Unknown Device";
     S_N := "UNKNOWN"; MAC_ID := "UNKNOWN"; Condition := "Unknown";
     Assigned_to := "Unassigned"; Owner := "Unassigned" |}.

(** A device whose team is written with two spaces, "#N/A  N/A". *)
Definition marker_raw : list (list string) :=
  [column_names;
   ["1"; "#N/A  N/A"; "Router"; "ABC12345"; ""; "Good"; "Lab"; "Ann"]].

(** * Properties *)

(** ** Strings: appending, stripping, splitting and joining *)

Section string_facts.

Implicit Types (s t w cur : string) (c : ascii) (ws : list string).

Lemma app_cons c s t : String c s +:+ t = String c (s +:+ t).
Proof. reflexivity. Qed.

Lemma app_empty_l s : "" +:+ s = s.
Proof. reflexivity. Qed.

Lemma app_empty_r s : s +:+ "" = s.
Proof. induction s as [|c s IH]; [done|]. by rewrite app_cons, IH. Qed.

Lemma app_assoc_str s t w : (s +:+ t) +:+ w = s +:+ (t +:+ w).
Proof. induction s as [|c s IH]; [done|]. by rewrite !app_cons, IH. Qed.

Lemma app_snoc s c t : (s +:+ String c "") +:+ t = s +:+ String c t.
Proof. by rewrite app_assoc_str. Qed.

Lemma truthy_app_r s t : Py.truthy t = true -> Py.truthy (s +:+ t) = true.
Proof. by destruct s. Qed.

Lemma truthy_false s : Py.truthy s = false -> s = "".
Proof. by destruct s. Qed.

Lemma truthy_true s : Py.truthy s = true <-> s <> "".
Proof. destruct s; split; done. Qed.

Lemma no_space_app s t : no_space (s +:+ t) = no_space s && no_space t.
Proof.
  induction s as [|c s IH]; [done|].
  rewrite app_cons. simpl. rewrite IH. by rewrite andb_assoc.
Qed.

(** The scan reads a whole word into [cur] before it looks further. *)
Lemma split_go_word cur w t :
  no_space w = true -> Py.split_go cur (w +:+ t) = Py.split_go (cur +:+ w) t.
Proof.
  revert cur. induction w as [|c w IH]; intros cur Hw.
  - by rewrite app_empty_l, app_empty_r.
  - simpl in Hw. apply andb_true_iff in Hw as [Hc Hw].
    rewrite app_cons. simpl. apply negb_true_iff in Hc. rewrite Hc.
    rewrite IH by done. by rewrite app_snoc.
Qed.

Lemma emit_word w : Py.truthy w = true -> Py.emit w = [w].
Proof. by destruct w. Qed.

Lemma split_go_words cur s :
  no_space cur = true ->
  Forall (fun w => is_word w = true) (Py.split_go cur s).
Proof.
  revert cur. induction s as [|c s IH]; intros cur Hcur; simpl.
  - destruct cur; simpl; [constructor|].
    constructor; [|constructor]. unfold is_word. by rewrite Hcur.
  - destruct (Py.isspace c) eqn:Hc.
    + apply Forall_app. split; [|by apply IH].
      destruct cur; simpl; [constructor|].
      constructor; [|constructor]. unfold is_word. by rewrite Hcur.
    + apply IH. rewrite no_space_app, Hcur. simpl. by rewrite Hc.
Qed.

Lemma split_words s : Forall (fun w => is_word w = true) (Py.split s).
Proof. by apply split_go_words. Qed.

Lemma join_cons2 sep w w' ws :
  Py.join sep (w :: w' :: ws) = w +:+ sep +:+ Py.join sep (w' :: ws).
Proof. reflexivity. Qed.

Lemma join_truthy sep w ws :
  Py.truthy w = true -> Py.truthy (Py.join sep (w :: ws)) = true.
Proof. destruct ws; [done|]. rewrite join_cons2. by destruct w. Qed.

(** Splitting a joined list of words gives the words back. *)
Lemma split_join ws :
  Forall (fun w => is_word w = true) ws -> Py.split (Py.join " " ws) = ws.
Proof.
  unfold Py.split. induction 1 as [|w ws Hw Hws IH]; [done|].
  apply andb_true_iff in Hw as [Hne Hns].
  destruct ws as [|w' ws].
  - simpl. rewrite <- (app_empty_r w) at 1.
    rewrite split_go_word by done. simpl. by apply emit_word.
  - rewrite join_cons2, split_go_word by done.
    rewrite app_empty_l, app_cons, app_empty_l.
    change (Py.split_go w (String " " (Py.join " " (w' :: ws))))
      with (Py.emit w ++ Py.split_go "" (Py.join " " (w' :: ws))).
    rewrite emit_word by done. by rewrite IH.
Qed.

Lemma lstrip_word_app w t :
  is_word w = true -> Py.lstrip (w +:+ t) = w +:+ t.
Proof.
  destruct w as [|c w]; [done|]. unfold is_word. simpl.
  intros [Hc _]%andb_true_iff. apply negb_true_iff in Hc.
  rewrite app_cons. simpl. by rewrite Hc.
Qed.

Lemma rstrip_word w : no_space w = true -> Py.rstrip w = w.
Proof.
  induction w as [|c w IH]; [done|]. simpl.
  intros [Hc Hw]%andb_true_iff. apply negb_true_iff in Hc.
  rewrite IH by done. rewrite Hc. by destruct w.
Qed.

Lemma rstrip_app s t :
  Py.truthy t = true -> Py.rstrip t = t -> Py.rstrip (s +:+ t) = s +:+ t.
Proof.
  intros Ht Hr. induction s as [|c s IH]; [done|].
  rewrite app_cons. simpl. rewrite IH.
  pose proof (truthy_app_r s t Ht) as Hne. by destruct (s +:+ t).
Qed.

Lemma rstrip_join ws :
  Forall (fun w => is_word w = true) ws ->
  Py.rstrip (Py.join " " ws) = Py.join " " ws.
Proof.
  induction 1 as [|w ws Hw Hws IH]; [done|].
  destruct ws as [|w' ws].
  - simpl. apply rstrip_word. by apply andb_true_iff in Hw as [_ ?].
  - rewrite join_cons2. apply rstrip_app.
    + apply truthy_app_r, join_truthy.
      apply Forall_cons in Hws as [Hw' _]. by apply andb_true_iff in Hw' as [? _].
    + apply (rstrip_app " "); [|done].
      apply join_truthy.
      apply Forall_cons in Hws as [Hw' _]. by apply andb_true_iff in Hw' as [? _].
Qed.

Lemma lstrip_join ws :
  Forall (fun w => is_word w = true) ws ->
  Py.lstrip (Py.join " " ws) = Py.join " " ws.
Proof.
  destruct 1 as [|w ws Hw Hws]; [done|].
  destruct ws as [|w' ws].
  - simpl. rewrite <- (app_empty_r w). by apply lstrip_word_app.
  - rewrite join_cons2. by apply lstrip_word_app.
Qed.

Lemma strip_join ws :
  Forall (fun w => is_word w = true) ws ->
  Py.strip (Py.join " " ws) = Py.join " " ws.
Proof.
  intros Hws. unfold Py.strip. rewrite lstrip_join by done. by apply rstrip_join.
Qed.

End string_facts.

(** ** What [clean_value] and the defaults return *)

Lemma clean_value_normalised v : normalised (clean_value v).
Proof.
  destruct v as [s|]; [|by split].
  split; simpl.
  - apply strip_join, split_words.
  - f_equal. apply split_join, split_words.
Qed.

Lemma or_default_normalised d x :
  normalised d -> normalised x -> normalised (or_default d x).
Proof. intros Hd Hx. unfold or_default. by destruct (Py.truthy x). Qed.

Lemma or_default_truthy d x :
  Py.truthy d = true -> Py.truthy (or_default d x) = true.
Proof. intros Hd. unfold or_default. by destruct (Py.truthy x) eqn:Hx. Qed.

(** Every field of a cleaned row is normalised. *)
Lemma clean_record_normalised row :
  Forall normalised (record_cells (clean_record row)).
Proof.
  assert (Hd : forall d, Py.strip d = d -> clean_value (Some d) = d ->
             forall v, normalised (or_default d (clean_value v))).
  { intros d H1 H2 v. apply or_default_normalised; [done|].
    apply clean_value_normalised. }
  unfold record_cells, clean_record.
  cbn [Sl_no Team Device_model S_N MAC_ID Condition Assigned_to Owner].
  repeat first
    [ apply Forall_nil_2
    | apply Forall_cons_2; [first [apply clean_value_normalised | by apply Hd]|] ].
Qed.

(** Every record that [read_inventory_csv] returns is a cleaned row. *)
Lemma read_inventory_csv_records file records r :
  read_inventory_csv file = Some records -> r ∈ records ->
  exists row, r = clean_record row.
Proof.
  unfold read_inventory_csv. destruct (read_csv8 file) as [rows|]; [|done].
  intros [= <-] Hr. apply list_elem_of_In, filter_In in Hr as [Hr _].
  apply in_map_iff in Hr as (row & <- & _). by exists row.
Qed.

Lemma cleaning_records raw records r :
  cleaning raw = Some records -> r ∈ records ->
  exists row, r = clean_record row.
Proof.
  unfold cleaning. destruct (clean_csv raw) as [df|]; [|done].
  apply read_inventory_csv_records.
Qed.

(** ** Identifier generator *)

Lemma last_chars_short n s : String.length s <= n -> Py.last_chars n s = s.
Proof.
  intros Hn. unfold Py.last_chars.
  replace (String.length s - n) with 0 by lia. by destruct s.
Qed.

Lemma lacking_false x :
  x <> "" -> x <> "UNKNOWN" ->
  Py.truthy x && negb (String.eqb x "UNKNOWN") = true.
Proof.
  intros H1 H2. apply andb_true_iff. split.
  - by apply truthy_true.
  - apply negb_true_iff. by apply String.eqb_neq.
Qed.

Lemma lacking_true x :
  lacking x = true ->
  Py.truthy x && negb (String.eqb x "UNKNOWN") = false.
Proof.
  unfold lacking. intros [H|H]%orb_true_iff.
  - apply negb_true_iff in H. by rewrite H.
  - rewrite H. apply andb_false_r.
Qed.

(** C1. For every record of a cleaning pass whose serial number is not the
    sentinel "UNKNOWN" (a record's serial number is never empty), the
    identifier is "SN" followed by the last 4 characters of the serial
    number, whatever the MAC address is, and the manager is unchanged; a
    serial number of at most 4 characters is used whole, without padding;
    serial "ABC12345" with MAC "AA:BB:CC:DD:EE:FF" gives "SN2345". *)
Theorem C1_serial_takes_precedence
    (raw : list (list string)) (records : list InventoryRecord)
    (r : InventoryRecord) (mac : string) (self : Manager) :
  cleaning raw = Some records -> r ∈ records -> S_N r <> "UNKNOWN" ->
  generate_identifier (S_N r) mac self
    = ("SN" +:+ Py.last_chars 4 (S_N r), self)
  /\ (String.length (S_N r) <= 4 ->
      generate_identifier (S_N r) mac self = ("SN" +:+ S_N r, self))
  /\ generate_identifier "ABC12345" "AA:BB:CC:DD:EE:FF" self = ("SN2345", self).
Proof.
  intros Hclean Hr Hsn.
  destruct (cleaning_records _ _ _ Hclean Hr) as [row ->].
  pose proof (clean_record_normalised row) as Hnorm.
  assert (Hstrip : Py.strip (S_N (clean_record row)) = S_N (clean_record row)).
  { unfold record_cells in Hnorm.
    apply Forall_cons in Hnorm as [_ Hnorm]. apply Forall_cons in Hnorm as [_ Hnorm].
    apply Forall_cons in Hnorm as [_ Hnorm]. apply Forall_cons in Hnorm as [[H _] _].
    exact H. }
  assert (Hne : S_N (clean_record row) <> "").
  { apply truthy_true. simpl. by apply or_default_truthy. }
  assert (Hid : generate_identifier (S_N (clean_record row)) mac self
                = ("SN" +:+ Py.last_chars 4 (S_N (clean_record row)), self)).
  { unfold generate_identifier. rewrite lacking_false by done. by rewrite Hstrip. }
  split; [exact Hid|]. split; [|reflexivity].
  intros Hlen. rewrite Hid. by rewrite last_chars_short.
Qed.

Lemma C1_witness :
  generate_identifier (S_N sample_record) "AA:BB:CC:DD:EE:FF" new_manager
    = ("SN" +:+ Py.last_chars 4 (S_N sample_record), new_manager)
  /\ (String.length (S_N sample_record) <= 4 ->
      generate_identifier (S_N sample_record) "AA:BB:CC:DD:EE:FF" new_manager
        = ("SN" +:+ S_N sample_record, new_manager))
  /\ generate_identifier "ABC12345" "AA:BB:CC:DD:EE:FF" new_manager
       = ("SN2345", new_manager).
Proof.
  apply (C1_serial_takes_precedence sample_raw [sample_record] sample_record).
  - vm_compute. reflexivity.
  - constructor.
  - discriminate.
Defined.

(** C3, as the code has it. For serial "UNKNOWN" and MAC
    "AA:BB:CC:DD:EE:FF" the identifier is exactly "MCE:FF": "MC" followed
    by the last 4 characters "E:FF" of the literal MAC string; the manager
    is unchanged. *)
Theorem C3_mac_identifier (self : Manager) :
  generate_identifier "UNKNOWN" "AA:BB:CC:DD:EE:FF" self = ("MCE:FF", self)
  /\ Py.last_chars 4 "AA:BB:CC:DD:EE:FF" = "E:FF".
Proof. split; reflexivity. Qed.

(** C3 as stated fails: the identifier for serial "UNKNOWN" and MAC
    "AA:BB:CC:DD:EE:FF" is not "MCEEFF". *)
Lemma C3_counterexample :
  fst (generate_identifier "UNKNOWN" "AA:BB:CC:DD:EE:FF" new_manager) <> "MCEEFF".
Proof. discriminate. Qed.

(** ** Decimal texts *)

Lemma zeros_string_of_uint k d :
  Py.zeros k +:+ NilEmpty.string_of_uint d
  = NilEmpty.string_of_uint (Nat.iter k D0 d).
Proof.
  induction k as [|k IH]; [done|].
  simpl. rewrite app_cons. by rewrite IH.
Qed.

Lemma of_uint_leading_zeros k d :
  Nat.of_uint (Nat.iter k D0 d) = Nat.of_uint d.
Proof. induction k as [|k IH]; [done|]. simpl. exact IH. Qed.

Lemma string_of_uint_inj d d' :
  NilEmpty.string_of_uint d = NilEmpty.string_of_uint d' -> d = d'.
Proof.
  intros H. apply (f_equal NilEmpty.uint_of_string) in H.
  rewrite !NilEmpty.usu in H. by injection H.
Qed.

(** Zero-filling a text of digits only puts zeros in front of it. *)
Lemma zfill_string_of_uint w d :
  Py.zfill w (NilEmpty.string_of_uint d)
  = Py.zeros (w - String.length (NilEmpty.string_of_uint d))
    +:+ NilEmpty.string_of_uint d.
Proof.
  unfold Py.zfill.
  destruct (w - String.length (NilEmpty.string_of_uint d)) as [|pad] eqn:Hpad;
    [done|].
  destruct d; simpl; try reflexivity. by rewrite app_empty_r.
Qed.

(** [str(n).zfill(4)] determines [n]. *)
Lemma zfill_str_inj w n m :
  Py.zfill w (Py.str_of_nat n) = Py.zfill w (Py.str_of_nat m) -> n = m.
Proof.
  unfold Py.str_of_nat. rewrite !zfill_string_of_uint, !zeros_string_of_uint.
  intros H%string_of_uint_inj. apply (f_equal Nat.of_uint) in H.
  by rewrite !of_uint_leading_zeros, !DecimalNat.Unsigned.of_to in H.
Qed.

Lemma app_inj_l (p s t : string) : p +:+ s = p +:+ t -> s = t.
Proof. induction p as [|c p IH]; [done|]. rewrite !app_cons. intros [=]. auto. Qed.

(** ** The fallback counter *)

Lemma usable_lacking x :
  Py.truthy x && negb (String.eqb x "UNKNOWN") = negb (lacking x).
Proof. unfold lacking. by destruct (Py.truthy x), (String.eqb x "UNKNOWN"). Qed.

Lemma generate_identifier_fallback serial mac self :
  lacking serial = true -> lacking mac = true ->
  generate_identifier serial mac self
  = ("DEV" +:+ Py.zfill 4 (Py.str_of_nat (counter self)),
     {| counter := counter self + 1;
        hostname_counters := hostname_counters self |}).
Proof.
  intros Hs Hm. unfold generate_identifier.
  by rewrite !usable_lacking, Hs, Hm.
Qed.

Lemma generate_identifier_used serial mac self :
  fallback_device (serial, mac) = false ->
  snd (generate_identifier serial mac self) = self.
Proof.
  unfold fallback_device, generate_identifier. rewrite !usable_lacking. simpl.
  by destruct (lacking serial), (lacking mac).
Qed.

Lemma identify_all_cons d devices self :
  identify_all (d :: devices) self
  = (fst (generate_identifier (fst d) (snd d) self)
       :: fst (identify_all devices (snd (generate_identifier (fst d) (snd d) self))),
     snd (identify_all devices (snd (generate_identifier (fst d) (snd d) self)))).
Proof.
  destruct d as [serial mac]. simpl.
  destruct (generate_identifier serial mac self) as [identifier self1]. simpl.
  by destruct (identify_all devices self1).
Qed.

(** The counter grows by one per fallback call and is otherwise left
    alone. *)
Lemma identify_all_counter devices self :
  counter (snd (identify_all devices self))
  = counter self + length (List.filter fallback_device devices).
Proof.
  revert self. induction devices as [|[serial mac] devices IH]; intros self.
  - simpl. lia.
  - rewrite identify_all_cons. cbn [fst snd]. rewrite IH.
    destruct (fallback_device (serial, mac)) eqn:Hd.
    + simpl. rewrite Hd.
      apply andb_true_iff in Hd as [Hs Hm]. simpl in Hs, Hm.
      rewrite generate_identifier_fallback by done. simpl. lia.
    + simpl. rewrite Hd. by rewrite generate_identifier_used.
Qed.

Lemma generate_identifier_counter serial mac self :
  counter self <= counter (snd (generate_identifier serial mac self)).
Proof.
  destruct (fallback_device (serial, mac)) eqn:Hd.
  - apply andb_true_iff in Hd as [Hs Hm]. simpl in Hs, Hm.
    rewrite generate_identifier_fallback by done. simpl. lia.
  - by rewrite generate_identifier_used.
Qed.

(** A fallback call somewhere in a run prints a counter value that is at
    least the counter the run started with. *)
Lemma identify_all_fallback_at devices self j d :
  devices !! j = Some d -> fallback_device d = true ->
  exists c, counter self <= c
    /\ fst (identify_all devices self) !! j
       = Some ("DEV" +:+ Py.zfill 4 (Py.str_of_nat c)).
Proof.
  revert self j. induction devices as [|d0 devices IH]; intros self j Hj Hd;
    [done|].
  rewrite identify_all_cons. cbn [fst].
  destruct j as [|j]; simpl in Hj.
  - injection Hj as ->. exists (counter self). split; [lia|].
    apply andb_true_iff in Hd as [Hs Hm].
    by rewrite generate_identifier_fallback.
  - destruct (IH (snd (generate_identifier (fst d0) (snd d0) self)) j Hj Hd)
      as (c & Hc & Hid).
    exists c. split; [|exact Hid].
    pose proof (generate_identifier_counter (fst d0) (snd d0) self). lia.
Qed.

Lemma identify_all_distinct_lt devices self i j di dj a b :
  i < j ->
  devices !! i = Some di -> devices !! j = Some dj ->
  fallback_device di = true -> fallback_device dj = true ->
  fst (identify_all devices self) !! i = Some a ->
  fst (identify_all devices self) !! j = Some b ->
  a <> b.
Proof.
  revert self i j. induction devices as [|d0 devices IH];
    intros self i j Hij Hi Hj Hdi Hdj Ha Hb; [done|].
  rewrite identify_all_cons in Ha, Hb. cbn [fst] in Ha, Hb.
  destruct j as [|j]; [lia|]. simpl in Hj, Hb.
  destruct i as [|i]; simpl in Hi, Ha.
  - injection Hi as ->. apply andb_true_iff in Hdi as [Hs Hm].
    rewrite generate_identifier_fallback in Ha, Hb by done.
    cbn [fst snd] in Ha, Hb. injection Ha as <-.
    destruct (identify_all_fallback_at devices
                {| counter := counter self + 1;
                   hostname_counters := hostname_counters self |} j dj Hj Hdj)
      as (c & Hc & Hid).
    rewrite Hid in Hb. injection Hb as <-. simpl in Hc.
    intros Heq. apply app_inj_l, zfill_str_inj in Heq. lia.
  - eapply (IH _ i j); eauto. lia.
Qed.

(** The call at position [i] is served by the manager that the calls
    before it left. *)
Lemma identify_all_lookup devices self i d :
  devices !! i = Some d ->
  fst (identify_all devices self) !! i
  = Some (fst (generate_identifier (fst d) (snd d)
                 (snd (identify_all (take i devices) self)))).
Proof.
  revert self i. induction devices as [|d0 devices IH]; intros self i Hi; [done|].
  rewrite identify_all_cons. cbn [fst].
  destruct i as [|i]; simpl in Hi.
  - by injection Hi as ->.
  - cbn [take]. rewrite identify_all_cons. cbn [snd]. simpl. by apply IH.
Qed.

(** C6. When both serial and MAC are empty or "UNKNOWN", the generator
    returns "DEV" followed by the current counter zero-padded to 4 digits
    and increments the counter; the first two such calls of a run yield
    "DEV0001" and "DEV0002", and in general the k-th such call of a run
    yields "DEV" followed by k zero-padded to 4 digits, whatever calls
    stand in between; over any run the counter only grows (by one per
    fallback call), so it never resets; and any two devices of a run that
    both lack serial and MAC receive distinct identifiers. *)
Theorem C6_fallback_counter :
  (forall serial mac self,
     lacking serial = true -> lacking mac = true ->
     generate_identifier serial mac self
     = ("DEV" +:+ Py.zfill 4 (Py.str_of_nat (counter self)),
        {| counter := counter self + 1;
           hostname_counters := hostname_counters self |}))
  /\ (forall d1 d2,
        fallback_device d1 = true -> fallback_device d2 = true ->
        fst (identify_all [d1; d2] new_manager) = ["DEV0001"; "DEV0002"])
  /\ (forall devices i d,
        devices !! i = Some d -> fallback_device d = true ->
        let k := length (List.filter fallback_device (take i devices)) + 1 in
        fst (identify_all devices new_manager) !! i
        = Some ("DEV" +:+ Py.zfill 4 (Py.str_of_nat k)))
  /\ (forall devices self,
        counter (snd (identify_all devices self))
        = counter self + length (List.filter fallback_device devices)
        /\ counter self <= counter (snd (identify_all devices self)))
  /\ (forall devices self i j di dj a b,
        i <> j ->
        devices !! i = Some di -> devices !! j = Some dj ->
        fallback_device di = true -> fallback_device dj = true ->
        fst (identify_all devices self) !! i = Some a ->
        fst (identify_all devices self) !! j = Some b ->
        a <> b).
Proof.
  split; [exact generate_identifier_fallback|].
  split; [|split; [|split]].
  - intros [s1 m1] [s2 m2] [H1 H1']%andb_true_iff [H2 H2']%andb_true_iff.
    simpl in *. rewrite generate_identifier_fallback by done.
    by rewrite generate_identifier_fallback.
  - intros devices i d Hi [Hs Hm]%andb_true_iff k. subst k.
    rewrite (identify_all_lookup _ _ _ _ Hi).
    rewrite generate_identifier_fallback by done. cbn [fst].
    rewrite identify_all_counter. simpl. do 4 f_equal. lia.
  - intros devices self. rewrite identify_all_counter. split; lia.
  - intros devices self i j di dj a b Hij Hi Hj Hdi Hdj Ha Hb.
    destruct (decide (i < j)) as [Hlt|Hge].
    + by eapply (identify_all_distinct_lt devices self i j).
    + intros Heq. symmetry in Heq. revert Heq.
      eapply (identify_all_distinct_lt devices self j i); eauto. lia.
Qed.

Lemma C6_witness :
  fst (identify_all [("", "UNKNOWN"); ("ABC12345", ""); ("UNKNOWN", "")]
         new_manager)
  = ["DEV0001"; "SN2345"; "DEV0002"]
  /\ "DEV0001" <> "DEV0002".
Proof.
  split; [reflexivity|].
  destruct C6_fallback_counter as (_ & _ & _ & _ & Hdistinct).
  apply (Hdistinct [("", "UNKNOWN"); ("ABC12345", ""); ("UNKNOWN", "")]
           new_manager 0 2 ("", "UNKNOWN") ("UNKNOWN", ""));
    first [reflexivity | lia].
Defined.

(** ** Hostname allocator *)

Lemma generate_unique_hostname_registry base self :
  hostname_counters (snd (generate_unique_hostname base self))
  = <[base := seen self base + 1]> (hostname_counters self).
Proof.
  unfold generate_unique_hostname, seen.
  by destruct (hostname_counters self !! base).
Qed.

Lemma generate_unique_hostname_counter base self :
  counter (snd (generate_unique_hostname base self)) = counter self.
Proof.
  unfold generate_unique_hostname.
  by destruct (hostname_counters self !! base).
Qed.

Lemma allocate_all_cons base bases self :
  allocate_all (base :: bases) self
  = (fst (generate_unique_hostname base self)
       :: fst (allocate_all bases (snd (generate_unique_hostname base self))),
     snd (allocate_all bases (snd (generate_unique_hostname base self)))).
Proof.
  simpl. destruct (generate_unique_hostname base self) as [hostname self1].
  simpl. by destruct (allocate_all bases self1).
Qed.

Lemma occurrences_cons base b bases :
  occurrences base (b :: bases)
  = (if String.eqb base b then 1 else 0) + occurrences base bases.
Proof. unfold occurrences. simpl. by destruct (String.eqb base b). Qed.

(** After a run of requests the registry holds, for each base, the number
    of times it was requested on top of what it held before. *)
Lemma allocate_all_registry bases self base :
  hostname_counters (snd (allocate_all bases self)) !! base
  = if Nat.eqb (occurrences base bases) 0
    then hostname_counters self !! base
    else Some (occurrences base bases + seen self base).
Proof.
  revert self. induction bases as [|b bases IH]; intros self; [done|].
  rewrite allocate_all_cons. cbn [snd]. rewrite IH, occurrences_cons.
  unfold seen at 1. rewrite !generate_unique_hostname_registry.
  destruct (String.eqb_spec base b) as [->|Hne].
  - rewrite lookup_insert_eq.
    destruct (Nat.eqb_spec (occurrences b bases) 0) as [->|Hocc]; simpl.
    + f_equal. lia.
    + f_equal. lia.
  - rewrite lookup_insert_ne by done. simpl.
    destruct (Nat.eqb (occurrences base bases) 0); [done|].
    by unfold seen.
Qed.

(** The request at position [i] is served from the registry that the
    requests before it left. *)
Lemma allocate_all_lookup bases self i base :
  bases !! i = Some base ->
  fst (allocate_all bases self) !! i
  = Some (fst (generate_unique_hostname base
                 (snd (allocate_all (take i bases) self)))).
Proof.
  revert self i. induction bases as [|b bases IH]; intros self i Hi; [done|].
  rewrite allocate_all_cons. cbn [fst].
  destruct i as [|i]; simpl in Hi.
  - by injection Hi as ->.
  - cbn [take]. rewrite allocate_all_cons. cbn [snd]. simpl. by apply IH.
Qed.

(** C5. In a run that starts with an empty registry, the request at
    position [i], being the n-th request for its base b (n-1 earlier
    requests ask for b), returns b itself when n = 1 and b + "-" + (n-1)
    when n >= 2; two requests for "Router-SN1234" return "Router-SN1234"
    and then "Router-SN1234-1". *)
Theorem C5_nth_request_for_base (bases : list string) (i : nat) (b : string) :
  bases !! i = Some b ->
  let n := occurrences b (take i bases) + 1 in
  fst (allocate_all bases new_manager) !! i
    = Some (if Nat.eqb n 1 then b else b +:+ "-" +:+ Py.str_of_nat (n - 1))
  /\ fst (allocate_all ["Router-SN1234"; "Router-SN1234"] new_manager)
     = ["Router-SN1234"; "Router-SN1234-1"].
Proof.
  intros Hi n. split; [|vm_compute; reflexivity].
  rewrite (allocate_all_lookup _ _ _ _ Hi). f_equal.
  unfold generate_unique_hostname.
  rewrite allocate_all_registry. unfold seen. simpl.
  rewrite lookup_empty. subst n.
  destruct (occurrences b (take i bases)) as [|k]; simpl; [done|].
  replace (k + 1) with (S k) by lia. simpl. by rewrite Nat.add_0_r.
Qed.

Lemma C5_witness :
  let bases := ["A-SN1"; "B-SN2"; "A-SN1"; "A-SN1"] in
  let n := occurrences "A-SN1" (take 3 bases) + 1 in
  fst (allocate_all bases new_manager) !! 3
    = Some (if Nat.eqb n 1 then "A-SN1" else "A-SN1" +:+ "-" +:+ Py.str_of_nat (n - 1))
  /\ fst (allocate_all ["Router-SN1234"; "Router-SN1234"] new_manager)
     = ["Router-SN1234"; "Router-SN1234-1"].
Proof.
  apply (C5_nth_request_for_base ["A-SN1"; "B-SN2"; "A-SN1"; "A-SN1"] 3 "A-SN1").
  reflexivity.
Defined.

(** C2 fails on the code. Requests for the bases "X", "X", "X-1" are
    answered "X", "X-1", "X-1": the suffixed name given to the second "X"
    is handed out again to the first request for the base "X-1".  The same
    happens through the pipeline: two devices of model "R" with serial "1"
    and one with serial "1-1" are allocated "R-SN1", "R-SN1-1" and
    "R-SN1-1". *)
Theorem C2_duplicate_hostname :
  fst (allocate_all ["X"; "X"; "X-1"] new_manager) = ["X"; "X-1"; "X-1"]
  /\ ~ NoDup (fst (allocate_all ["X"; "X"; "X-1"] new_manager))
  /\ exists records,
       cleaning colliding_raw = Some records
       /\ allocated_hostnames records new_manager
          = ["R-SN1"; "R-SN1-1"; "R-SN1-1"].
Proof.
  assert (H : fst (allocate_all ["X"; "X"; "X-1"] new_manager)
              = ["X"; "X-1"; "X-1"]) by (vm_compute; reflexivity).
  split; [exact H|]. split.
  - rewrite H. intros Hnd. apply NoDup_cons in Hnd as [_ Hnd].
    apply NoDup_cons in Hnd as [Hin _]. apply Hin. constructor.
  - eexists. split.
    + vm_compute. reflexivity.
    + vm_compute. reflexivity.
Qed.

(** ** Record cleaner: blank rows *)

Lemma whitespace_only_lstrip s : whitespace_only s = true -> Py.lstrip s = "".
Proof.
  induction s as [|c s IH]; [done|]. simpl.
  intros [Hc Hs]%andb_true_iff. rewrite Hc. by apply IH.
Qed.

Lemma whitespace_only_strip s : whitespace_only s = true -> Py.strip s = "".
Proof. intros Hs. unfold Py.strip. by rewrite whitespace_only_lstrip. Qed.

Lemma blank_row_any_nonblank row :
  blank_row row = true -> any_nonblank row = false.
Proof.
  unfold blank_row, any_nonblank. induction row as [|cell row IH]; [done|].
  simpl. intros [Hc Hrow]%andb_true_iff.
  rewrite whitespace_only_strip by done. simpl. by apply IH.
Qed.

Lemma clean_rows_app rows rows' :
  clean_rows (rows ++ rows') = clean_rows rows ++ clean_rows rows'.
Proof.
  induction rows as [|row rows IH]; [done|]. simpl.
  destruct (any_nonblank row); simpl; by rewrite IH.
Qed.

(** C7. A raw row whose cells are all empty or whitespace-only is dropped
    entirely: wherever it stands in the input, the surviving rows (hence
    the header and the data), the cleaned frame and the records are those
    of the input without it, and none of the surviving rows comes from
    it. *)
Theorem C7_blank_row_dropped
    (before after : list (list string)) (row : list string) :
  blank_row row = true ->
  clean_rows [row] = []
  /\ clean_rows (before ++ row :: after) = clean_rows (before ++ after)
  /\ clean_csv (before ++ row :: after) = clean_csv (before ++ after)
  /\ cleaning (before ++ row :: after) = cleaning (before ++ after).
Proof.
  intros Hblank.
  assert (H1 : clean_rows [row] = []).
  { simpl. by rewrite blank_row_any_nonblank. }
  assert (H2 : clean_rows (before ++ row :: after) = clean_rows (before ++ after)).
  { rewrite !clean_rows_app. f_equal. simpl.
    by rewrite blank_row_any_nonblank. }
  split; [exact H1|]. split; [exact H2|].
  unfold cleaning, clean_csv. by rewrite H2.
Qed.

Lemma C7_witness :
  let before := [column_names] in
  let row := ["  "; ""; String "009" ""] in
  let after := [["1"; "Net"; "Router"; "ABC12345"; ""; "Good"; "Lab"; "Ann"]] in
  clean_rows [row] = []
  /\ clean_rows (before ++ row :: after) = clean_rows (before ++ after)
  /\ clean_csv (before ++ row :: after) = clean_csv (before ++ after)
  /\ cleaning (before ++ row :: after) = cleaning (before ++ after).
Proof.
  apply (C7_blank_row_dropped [column_names] _ ["  "; ""; String "009" ""]).
  reflexivity.
Defined.

(** ** Record cleaner: defaults *)

Lemma or_default_empty d x : x = "" -> or_default d x = d.
Proof. by intros ->. Qed.

(** ** Sync orchestrator *)

(** The manager after one record does not depend on the replies. *)
Lemma create_or_update_host_state row net manager :
  snd (create_or_update_host row net manager)
  = snd (allocate_hostname row manager).
Proof.
  unfold create_or_update_host.
  destruct (allocate_hostname row manager) as [hostname manager'].
  destruct (get_group_id _ net) as [group_id|]; [|done].
  destruct (negb (Py.truthy group_id)); [done|].
  destruct (host_create net) as [|code [[]|]]; [done| |];
    by destruct (Nat.eqb code 200).
Qed.

Lemma process_devices_cons row rest i net manager success failed :
  process_devices (row :: rest) i net manager success failed
  = let ok := fst (create_or_update_host row (net i) manager) in
    process_devices rest (S i) net (snd (allocate_hostname row manager))
      (if ok then success + 1 else success)
      (if ok then failed else failed + 1).
Proof.
  simpl. rewrite <- (create_or_update_host_state row (net i) manager).
  destruct (create_or_update_host row (net i) manager) as [[] manager']; done.
Qed.

Lemma outcomes_cons row rest i net manager :
  outcomes (row :: rest) i net manager
  = fst (create_or_update_host row (net i) manager)
      :: outcomes rest (S i) net (snd (allocate_hostname row manager)).
Proof.
  simpl. rewrite <- (create_or_update_host_state row (net i) manager).
  by destruct (create_or_update_host row (net i) manager).
Qed.

(** The loop visits every record: it counts one success per [True], one
    failure per [False], and leaves the manager of the allocations. *)
Lemma process_devices_spec records i net manager success failed :
  process_devices records i net manager success failed
  = (success + length (List.filter id (outcomes records i net manager)),
     failed + length (List.filter negb (outcomes records i net manager)),
     allocation_state records manager).
Proof.
  revert i manager success failed.
  induction records as [|row rest IH]; intros i manager success failed.
  - simpl. by rewrite !Nat.add_0_r.
  - rewrite process_devices_cons, outcomes_cons. cbn zeta. rewrite IH.
    destruct (fst (create_or_update_host row (net i) manager)); simpl;
      f_equal; f_equal; lia.
Qed.

Lemma outcomes_length records i net manager :
  length (outcomes records i net manager) = length records.
Proof.
  revert i manager. induction records as [|row rest IH]; intros i manager;
    [done|].
  rewrite outcomes_cons. simpl. by rewrite IH.
Qed.

Lemma filter_id_negb_length (l : list bool) :
  length (List.filter id l) + length (List.filter negb l) = length l.
Proof. induction l as [|[] l IH]; simpl; lia. Qed.

Lemma sync_spec records net :
  sync records net
  = ({| success_count := length (List.filter id (outcomes records 0 net new_manager));
        failed_count := length (List.filter negb (outcomes records 0 net new_manager));
        total_count := length records |},
     allocation_state records new_manager).
Proof. unfold sync. by rewrite process_devices_spec. Qed.

(** Whether a record succeeds is decided by its own replies alone. *)
Lemma create_or_update_host_ok row net manager :
  fst (create_or_update_host row net manager) = delivered row net.
Proof.
  unfold create_or_update_host, delivered.
  destruct (allocate_hostname row manager) as [hostname manager'].
  destruct (get_group_id _ net) as [group_id|]; [|done].
  destruct (Py.truthy group_id); simpl; [|done].
  destruct (host_create net) as [|code [[]|]]; simpl; [done| |];
    by destruct (Nat.eqb code 200).
Qed.

Lemma outcomes_delivered records i net manager :
  outcomes records i net manager
  = imap (fun k row => delivered row (net (i + k))) records.
Proof.
  revert i manager. induction records as [|row rest IH]; intros i manager;
    [done|].
  rewrite outcomes_cons, create_or_update_host_ok, IH. simpl.
  rewrite Nat.add_0_r. f_equal. apply imap_ext. intros k row' _. simpl.
  by rewrite Nat.add_succ_r.
Qed.

Lemma main_spec raw login net auth_token records :
  cleaning raw = Some records ->
  get_zabbix_token login = Some auth_token -> Py.truthy auth_token = true ->
  main raw login net = Some (fst (sync records net)).
Proof.
  unfold cleaning, main. destruct (clean_csv raw) as [df|]; [|done].
  intros Hread -> ->. simpl. by rewrite Hread.
Qed.

(** C9. Over any list of cleaned records and any replies of the remote,
    the loop handles every record: the record at position i fails exactly
    when its own replies fail (no group id from [hostgroup.get] and
    [hostgroup.create], or [host.create] raising, answering another status
    than 200 or without result), whatever happened to the records before
    it; the summary counts one success or one failure per record, so
    success + failed = total = the number of records; and [main] returns
    this summary whenever cleaning and authentication succeeded, whichever
    records fail. *)
Theorem C9_failures_stay_per_record
    (records : list InventoryRecord) (net : nat -> Remote) :
  let summary := fst (sync records net) in
  let results := outcomes records 0 net new_manager in
  results = imap (fun i row => delivered row (net i)) records
  /\ length results = length records
  /\ success_count summary = length (List.filter id results)
  /\ failed_count summary = length (List.filter negb results)
  /\ total_count summary = length records
  /\ success_count summary + failed_count summary = total_count summary
  /\ (forall raw login auth_token,
        cleaning raw = Some records ->
        get_zabbix_token login = Some auth_token ->
        Py.truthy auth_token = true ->
        main raw login net = Some summary).
Proof.
  intros summary results. subst summary results.
  rewrite sync_spec. cbn [fst success_count failed_count total_count].
  split; [apply outcomes_delivered|].
  split; [apply outcomes_length|].
  split; [done|]. split; [done|]. split; [done|].
  split.
  - rewrite filter_id_negb_length. apply outcomes_length.
  - intros raw login auth_token Hclean Hlogin Htoken.
    rewrite (main_spec _ _ _ _ _ Hclean Hlogin Htoken).
    by rewrite sync_spec.
Qed.

Lemma C9_witness :
  main (to_csv_rows [sample_record; anonymous_record; sample_record])
    (Status 200 (Some "token")) flaky_net
  = Some {| success_count := 2; failed_count := 1; total_count := 3 |}.
Proof.
  destruct (C9_failures_stay_per_record
              [sample_record; anonymous_record; sample_record] flaky_net)
    as (_ & _ & _ & _ & _ & _ & Hmain).
  rewrite (Hmain _ (Status 200 (Some "token")) "token");
    vm_compute; reflexivity.
Defined.

(** C10. A record changes the fallback counter and the hostname registry
    whatever the remote answers: the manager after
    [create_or_update_host] is the manager after the allocation alone, so
    a record that fails group resolution or host creation has still used
    its counter value (the counter is one higher when serial and MAC are
    lacking) and its registry slot (the count of its base hostname is one
    higher), and the manager at the end of a run is the one of the
    allocations.  Later records see it: after a failed device without
    serial and MAC the next such device is named "Router-DEV0002", and
    after a failed device with serial "ABC12345" the next one with the
    same model and serial is named "Router-SN2345-1". *)
Theorem C10_state_kept_on_failure
    (row : InventoryRecord) (net : Remote) (manager : Manager) :
  let manager' := snd (create_or_update_host row net manager) in
  let identifier := fst (generate_identifier (S_N row) (MAC_ID row) manager) in
  let base := base_hostname_of row identifier in
  manager' = snd (allocate_hostname row manager)
  /\ (fallback_device (S_N row, MAC_ID row) = true ->
      counter manager' = counter manager + 1)
  /\ hostname_counters manager' !! base = Some (seen manager base + 1)
  /\ (forall records nets,
        snd (sync records nets) = allocation_state records new_manager)
  /\ (let failed := create_or_update_host anonymous_record remote_down new_manager in
      fst failed = false
      /\ fst (allocate_hostname anonymous_record new_manager) = "Router-DEV0001"
      /\ fst (allocate_hostname anonymous_record (snd failed)) = "Router-DEV0002")
  /\ (let failed := create_or_update_host sample_record remote_down new_manager in
      fst failed = false
      /\ fst (allocate_hostname sample_record new_manager) = "Router-SN2345"
      /\ fst (allocate_hostname sample_record (snd failed)) = "Router-SN2345-1").
Proof.
  intros manager' identifier base. subst manager' identifier base.
  rewrite create_or_update_host_state.
  split; [done|]. split; [|split; [|split]].
  - intros [Hs Hm]%andb_true_iff. simpl in Hs, Hm.
    unfold allocate_hostname. rewrite generate_identifier_fallback by done.
    by rewrite generate_unique_hostname_counter.
  - unfold allocate_hostname.
    destruct (generate_identifier (S_N row) (MAC_ID row) manager)
      as [identifier manager1] eqn:Hid.
    cbn [fst]. rewrite generate_unique_hostname_registry, lookup_insert_eq.
    do 2 f_equal. unfold seen.
    assert (Hreg : hostname_counters manager1 = hostname_counters manager).
    { apply (f_equal snd) in Hid. simpl in Hid. subst manager1.
      unfold generate_identifier.
      by destruct (_ && _); [|destruct (_ && _)]. }
    by rewrite Hreg.
  - intros records nets. by rewrite sync_spec.
  - split; repeat split; vm_compute; reflexivity.
Qed.

Lemma C10_witness :
  fst (create_or_update_host anonymous_record remote_down new_manager) = false
  /\ counter (snd (create_or_update_host anonymous_record remote_down new_manager))
     = counter new_manager + 1.
Proof.
  destruct (C10_state_kept_on_failure anonymous_record remote_down new_manager)
    as (_ & Hcounter & _).
  split; [reflexivity|]. apply Hcounter. reflexivity.
Defined.

(** ** Cleaning twice *)

Lemma rstrip_idem s : Py.rstrip (Py.rstrip s) = Py.rstrip s.
Proof.
  induction s as [|c s IH]; [done|]. simpl.
  destruct (Py.rstrip s) as [|c' r] eqn:Hr.
  - destruct (Py.isspace c) eqn:Hc; [done|]. simpl. by rewrite Hc.
  - change (Py.rstrip (String c (String c' r)))
      with (match Py.rstrip (String c' r) with
            | "" => if Py.isspace c then "" else String c ""
            | r' => String c r'
            end).
    by rewrite IH.
Qed.

Lemma lstrip_head s :
  Py.lstrip s = "" \/ exists c t, Py.lstrip s = String c t /\ Py.isspace c = false.
Proof.
  induction s as [|c s IH]; [by left|]. simpl.
  destruct (Py.isspace c) eqn:Hc; [done|]. right. by exists c, s.
Qed.

Lemma lstrip_rstrip_head c t :
  Py.isspace c = false ->
  Py.lstrip (Py.rstrip (String c t)) = Py.rstrip (String c t).
Proof.
  intros Hc. simpl. destruct (Py.rstrip t); rewrite ?Hc; simpl; by rewrite Hc.
Qed.

Lemma strip_idem s : Py.strip (Py.strip s) = Py.strip s.
Proof.
  unfold Py.strip. destruct (lstrip_head s) as [->|(c & t & -> & Hc)]; [done|].
  rewrite lstrip_rstrip_head by done. apply rstrip_idem.
Qed.

Lemma any_nonblank_strip row :
  any_nonblank (map Py.strip row) = any_nonblank row.
Proof.
  unfold any_nonblank. induction row as [|x row IH]; [done|].
  simpl. by rewrite strip_idem, IH.
Qed.

Lemma take_map_strip n row :
  take n (map Py.strip row) = map Py.strip (take n row).
Proof. revert n. induction row as [|x row IH]; intros [|n]; simpl; by rewrite ?IH. Qed.

(** The first stage hands over tidy rows, when the text of every row
    starts within its first 8 cells. *)
Lemma clean_rows_tidy raw :
  Forall content_in_first_8 raw -> Forall tidy_row (clean_rows raw).
Proof.
  induction 1 as [|row raw Hrow Hraw IH]; [constructor|]. simpl.
  destruct (any_nonblank row) eqn:Hany; [|done].
  constructor; [|done]. repeat split.
  - rewrite take_map_strip. apply Forall_forall. intros x Hx.
    apply list_elem_of_fmap in Hx as (y & -> & _). apply strip_idem.
  - rewrite length_take. lia.
  - rewrite take_map_strip, any_nonblank_strip. by apply Hrow.
Qed.

Lemma map_strip_tidy row :
  Forall (fun x => Py.strip x = x) row -> map Py.strip row = row.
Proof. induction 1 as [|x row Hx Hrow IH]; [done|]. simpl. by rewrite Hx, IH. Qed.

(** The loop of the first stage leaves tidy rows as they are. *)
Lemma clean_rows_fixed rows :
  Forall tidy_row rows -> clean_rows rows = rows.
Proof.
  induction 1 as [|row rows (Hstrip & Hlen & Hany) Hrows IH]; [done|].
  simpl. rewrite Hany, IH, map_strip_tidy by done.
  by rewrite take_ge by done.
Qed.

Lemma tidy_row_nonempty row : tidy_row row -> row <> [].
Proof. intros (_ & _ & Hany) ->. discriminate. Qed.

Lemma strip_pad_row w row :
  Forall (fun x => Py.strip x = x) row ->
  map (option_map Py.strip) (pad_row w row) = pad_row w row.
Proof.
  intros Hrow. unfold pad_row. rewrite map_app. f_equal.
  - induction Hrow as [|x row Hx Hrow IH]; [done|]. simpl. by rewrite Hx, IH.
  - induction (w - length row) as [|k IH]; [done|]. simpl. by rewrite IH.
Qed.

Lemma pad_row_kept w row :
  row <> [] -> negb (forallb is_missing (pad_row w row)) = true.
Proof. by destruct row. Qed.

(** On tidy rows the frame built by [clean_csv] is left as it is by the
    strip and by [dropna]. *)
Lemma frame_rows_tidy w data :
  Forall tidy_row data ->
  List.filter (fun row => negb (forallb is_missing row))
    (map (map (option_map Py.strip)) (map (pad_row w) data))
  = map (pad_row w) data.
Proof.
  induction 1 as [|row data Hrow Hdata IH]; [done|].
  cbn [map]. rewrite strip_pad_row by apply Hrow.
  cbn [List.filter]. rewrite pad_row_kept by (by apply tidy_row_nonempty).
  by rewrite IH.
Qed.

Lemma clean_csv_tidy rows header data :
  clean_rows rows = header :: data -> Forall tidy_row (header :: data) ->
  clean_csv rows = new_frame data header.
Proof.
  intros Hrows Htidy. apply Forall_cons in Htidy as [(_ & Hlen & _) Hdata].
  unfold clean_csv. rewrite Hrows, take_ge by done.
  unfold new_frame. destruct data as [|row data]; [done|].
  destruct (Nat.eqb _ _); [|done].
  unfold dropna_all, strip_frame. cbn [columns frame_rows].
  by rewrite frame_rows_tidy.
Qed.

Lemma written_pad_row w row :
  map (fun c => match c with None => "" | Some x => x end) (pad_row w row)
  = pad_text w row.
Proof.
  unfold pad_row, pad_text. rewrite map_app, map_map, map_id. f_equal.
  induction (w - length row) as [|k IH]; [done|]. simpl. by rewrite IH.
Qed.

Lemma max_width_bound data row :
  row ∈ data -> length row <= max_width data.
Proof.
  induction 1 as [row data|row row' data Hin IH]; simpl; lia.
Qed.

Lemma any_nonblank_app row row' :
  any_nonblank row = true -> any_nonblank (row ++ row') = true.
Proof.
  unfold any_nonblank. intros H. rewrite existsb_app, H. done.
Qed.

Lemma pad_text_length w row : length row <= w -> length (pad_text w row) = w.
Proof.
  intros Hlen. unfold pad_text. rewrite length_app, length_replicate. lia.
Qed.

Lemma pad_text_tidy w row :
  w <= 8 -> length row <= w -> tidy_row row -> tidy_row (pad_text w row).
Proof.
  intros Hw Hlen (Hstrip & _ & Hany). repeat split.
  - unfold pad_text. apply Forall_app. split; [done|].
    apply Forall_replicate. reflexivity.
  - rewrite pad_text_length by done. done.
  - by apply any_nonblank_app.
Qed.

Lemma max_width_pad_text w data :
  data <> [] -> Forall (fun row => length row <= w) data ->
  max_width (map (pad_text w) data) = w.
Proof.
  intros Hne Hdata. induction Hdata as [|row data Hrow Hdata IH]; [done|].
  simpl. rewrite pad_text_length by done.
  destruct data as [|row' data]; simpl in *; [lia|].
  rewrite IH by done. lia.
Qed.

Lemma read_cell_empty : read_cell (Some "") = read_cell None.
Proof. reflexivity. Qed.

(** The reader gets the same cells from a padded line of text as from
    the padded row of the frame. *)
Lemma read_pad_text w row :
  length row <= w ->
  map read_cell (pad_row w (pad_text w row)) = map read_cell (pad_row w row).
Proof.
  intros Hlen. unfold pad_row at 1. rewrite pad_text_length by done.
  rewrite Nat.sub_diag. simpl. rewrite app_nil_r.
  unfold pad_text, pad_row. rewrite !map_app. f_equal.
  rewrite !map_map.
  induction (w - length row) as [|k IH]; [done|]. simpl. by rewrite IH.
Qed.

Lemma new_frame_nonempty data cols :
  data <> [] ->
  new_frame data cols
  = if Nat.eqb (max_width data) (length cols)
    then Some {| columns := cols;
                 frame_rows := map (pad_row (max_width data)) data |}
    else None.
Proof. by destruct data. Qed.

(** Cleaning the cleaned file again gives a frame that reads as the
    first one. *)
Lemma clean_csv_written raw df :
  Forall content_in_first_8 raw -> clean_csv raw = Some df ->
  exists df', clean_csv (written_rows df) = Some df'
              /\ read_csv8 df' = read_csv8 df.
Proof.
  intros Hraw Hdf. pose proof (clean_rows_tidy raw Hraw) as Htidy.
  destruct (clean_rows raw) as [|header data] eqn:Hrows.
  { unfold clean_csv in Hdf. by rewrite Hrows in Hdf. }
  rewrite (clean_csv_tidy raw header data Hrows Htidy) in Hdf.
  apply Forall_cons in Htidy as [Hheader Hdata].
  destruct (decide (data = [])) as [->|Hne].
  - injection Hdf as <-. exists {| columns := header; frame_rows := [] |}.
    split; [|done]. unfold written_rows. cbn [columns frame_rows map].
    assert (Hone : Forall tidy_row [header]) by (by constructor).
    rewrite (clean_csv_tidy _ header []); [done| |done].
    by apply clean_rows_fixed.
  - rewrite new_frame_nonempty in Hdf by done.
    set (w := max_width data) in *.
    destruct (Nat.eqb_spec w (length header)) as [Hw|]; [|done].
    injection Hdf as <-.
    assert (Hw8 : w <= 8) by (rewrite Hw; apply Hheader).
    assert (Hlens : Forall (fun r => length r <= w) data).
    { apply Forall_forall. intros r Hr. by apply max_width_bound. }
    assert (Htexts : Forall tidy_row (map (pad_text w) data)).
    { apply Forall_fmap. apply Forall_forall. intros r Hr. simpl.
      apply pad_text_tidy; [done| |].
      - by eapply Forall_forall in Hlens.
      - by eapply Forall_forall in Hdata. }
    assert (Hne' : map (pad_text w) data <> []) by (by destruct data).
    exists {| columns := header;
              frame_rows := map (pad_row w) (map (pad_text w) data) |}.
    split.
    + unfold written_rows. cbn [columns frame_rows].
      rewrite map_map. rewrite (map_ext _ (pad_text w)) by apply written_pad_row.
      rewrite (clean_csv_tidy _ header (map (pad_text w) data)).
      * rewrite new_frame_nonempty by done.
        rewrite max_width_pad_text by done.
        by rewrite <- Hw, Nat.eqb_refl.
      * apply clean_rows_fixed. by constructor.
      * by constructor.
    + unfold read_csv8. cbn [columns frame_rows].
      destruct (Nat.leb 8 (length header)); [|done]. f_equal.
      rewrite !map_map. apply map_ext_Forall.
      eapply Forall_impl; [exact Hlens|]. intros r Hr. simpl.
      rewrite <- !firstn_map. f_equal. by apply read_pad_text.
Qed.

(** Re-cleaning the cleaned file yields the records of the first pass. *)
Lemma cleaning_written raw df :
  Forall content_in_first_8 raw -> clean_csv raw = Some df ->
  cleaning (written_rows df) = read_inventory_csv df.
Proof.
  intros Hraw Hdf.
  destruct (clean_csv_written raw df Hraw Hdf) as (df' & Hdf' & Hread).
  unfold cleaning. rewrite Hdf'. unfold read_inventory_csv. by rewrite Hread.
Qed.

(** *** Saving the records and cleaning them again *)

Lemma clean_value_read_cell x :
  normalised x -> survives_reading x -> clean_value (read_cell (Some x)) = x.
Proof.
  intros [_ Hx] [->|Hna]; [done|]. unfold read_cell. by rewrite Hna.
Qed.

Lemma or_default_nonempty d x : x <> "" -> or_default d x = x.
Proof. by destruct x. Qed.

Lemma clean_record_defaulted row :
  Forall (fun x => x <> "") (defaulted_cells (clean_record row)).
Proof.
  unfold defaulted_cells, clean_record.
  cbn [Team Device_model S_N MAC_ID Condition Assigned_to Owner].
  repeat first
    [ apply Forall_nil_2
    | apply Forall_cons_2; [apply truthy_true; by apply or_default_truthy|] ].
Qed.

(** A record whose fields are normalised, non-empty where there is a
    default, and not taken for missing values by the reader, is read and
    cleaned back from its own line. *)
Lemma clean_record_reread r :
  Forall normalised (record_cells r) ->
  Forall (fun x => x <> "") (defaulted_cells r) ->
  Forall survives_reading (record_cells r) ->
  clean_record (map read_cell (take 8 (pad_row 8 (record_cells r)))) = r.
Proof.
  destruct r as [a b c d e f g h].
  unfold record_cells, defaulted_cells. simpl.
  intros Hn Hd Hs. unfold clean_record, cell. simpl.
  repeat match goal with
         | H : Forall _ (_ :: _) |- _ => apply Forall_cons in H as [? H]
         end.
  rewrite !clean_value_read_cell by done.
  by rewrite !or_default_nonempty by done.
Qed.

Lemma record_cells_tidy r :
  Forall normalised (record_cells r) ->
  Forall (fun x => x <> "") (defaulted_cells r) ->
  tidy_row (record_cells r).
Proof.
  intros Hn Hd. repeat split.
  - eapply Forall_impl; [exact Hn|]. by intros x [Hx _].
  - done.
  - destruct r as [a b c d e f g h].
    unfold record_cells, defaulted_cells in *. simpl in *.
    apply Forall_cons in Hn as [_ Hn]. apply Forall_cons in Hn as [[Hb _] _].
    apply Forall_cons in Hd as [Hd _].
    unfold any_nonblank. simpl. rewrite Hb.
    apply truthy_true in Hd. rewrite Hd. apply orb_true_r.
Qed.

Lemma any_nonempty_tidy r :
  tidy_row (record_cells r) -> any_nonempty r = true.
Proof. by intros (_ & _ & H). Qed.

Lemma max_width_exact w data :
  data <> [] -> Forall (fun row => length row = w) data -> max_width data = w.
Proof.
  intros Hne Hdata. induction Hdata as [|row data Hrow Hdata IH]; [done|].
  simpl. destruct data as [|row' data]; simpl in *; [lia|].
  rewrite IH by done. lia.
Qed.

(** Saving cleaned records and cleaning the saved file yields them
    again, when the reader takes none of their fields for a missing
    value. *)
Lemma cleaning_saved_records records :
  Forall (fun r => Forall normalised (record_cells r)) records ->
  Forall (fun r => Forall (fun x => x <> "") (defaulted_cells r)) records ->
  Forall (fun r => Forall survives_reading (record_cells r)) records ->
  cleaning (to_csv_rows records) = Some records.
Proof.
  intros Hn Hd Hs.
  assert (Htidy : Forall tidy_row (to_csv_rows records)).
  { constructor.
    { split; [|split; [simpl; lia|reflexivity]].
      unfold column_names. repeat (constructor; [reflexivity|]). constructor. }
    apply Forall_fmap. apply Forall_forall. intros r Hr. simpl.
    apply record_cells_tidy.
    - by eapply Forall_forall in Hn.
    - by eapply Forall_forall in Hd. }
  unfold cleaning.
  rewrite (clean_csv_tidy _ column_names (map record_cells records));
    [|by apply clean_rows_fixed|exact Htidy].
  destruct (decide (records = [])) as [->|Hne]; [done|].
  rewrite new_frame_nonempty by (by destruct records).
  rewrite (max_width_exact 8);
    [|by destruct records|by apply Forall_fmap, Forall_true].
  simpl. unfold read_inventory_csv, read_csv8. simpl. f_equal.
  rewrite !map_map.
  apply Forall_cons in Htidy as [_ Htidy]. apply Forall_fmap in Htidy.
  clear Hne. induction records as [|r records IH]; [done|].
  apply Forall_cons in Hn as [Hn1 Hn], Hd as [Hd1 Hd], Hs as [Hs1 Hs],
    Htidy as [Ht1 Htidy].
  cbn [map]. rewrite clean_record_reread by done.
  cbn [List.filter]. rewrite any_nonempty_tidy by done.
  f_equal. by apply IH.
Qed.

(** C8, as the code has it. Cleaning again is idempotent under two
    conditions.  When every input row that has a non-blank cell has one
    among its first 8 cells, the loop of the first stage is a fixed point
    on its own output and cleaning the cleaned file again yields the same
    records.  When no field of the records is a text that the CSV reader
    takes for a missing value, saving the records and cleaning the saved
    file yields the same records. *)
Theorem C8_cleaning_twice
    (raw : list (list string)) (df : DataFrame)
    (records : list InventoryRecord) :
  clean_csv raw = Some df -> read_inventory_csv df = Some records ->
  (Forall content_in_first_8 raw ->
   clean_rows (clean_rows raw) = clean_rows raw
   /\ cleaning (written_rows df) = Some records)
  /\ (Forall (fun r => Forall survives_reading (record_cells r)) records ->
      cleaning (to_csv_rows records) = Some records).
Proof.
  intros Hdf Hrecords. split.
  - intros Hraw. split.
    + by apply clean_rows_fixed, clean_rows_tidy.
    + by rewrite (cleaning_written raw df Hraw Hdf).
  - intros Hs. apply cleaning_saved_records; [| |exact Hs].
    + apply Forall_forall. intros r Hr.
      destruct (read_inventory_csv_records _ _ _ Hrecords Hr) as [row ->].
      apply clean_record_normalised.
    + apply Forall_forall. intros r Hr.
      destruct (read_inventory_csv_records _ _ _ Hrecords Hr) as [row ->].
      apply clean_record_defaulted.
Qed.

Lemma C8_witness :
  cleaning (to_csv_rows [sample_record]) = Some [sample_record]
  /\ clean_rows (clean_rows sample_raw) = clean_rows sample_raw.
Proof.
  destruct (C8_cleaning_twice sample_raw
              {| columns := column_names;
                 frame_rows := [map Some (record_cells sample_record)] |}
              [sample_record])
    as [Hfile Hsaved]; [vm_compute; reflexivity ..|].
  split.
  - apply Hsaved. constructor; [|constructor].
    repeat (constructor; [right; reflexivity|]). constructor.
  - apply Hfile. repeat (constructor; [intros _; reflexivity|]).
    constructor.
Defined.

(** C8 as stated fails.  A line whose only text stands in a ninth cell
    passes the blank test, is cut to 8 empty cells and becomes a record
    of defaults; cleaning the cleaned file again drops that line, so the
    first stage is not a fixed point on its own output and the record is
    lost, while the record of the other line stays.  And a team written "#N/A  N/A" is cleaned to "#N/A N/A", which
    the reader of the saved records takes for a missing value: cleaning
    again turns the team into "Inventory". *)
Lemma C8_counterexample :
  clean_rows (clean_rows overflow_raw) <> clean_rows overflow_raw
  /\ (exists df,
        clean_csv overflow_raw = Some df
        /\ cleaning overflow_raw = Some [default_record; router_of_team "Net"]
        /\ cleaning (written_rows df) = Some [router_of_team "Net"])
  /\ cleaning marker_raw = Some [router_of_team "#N/A N/A"]
  /\ cleaning (to_csv_rows [router_of_team "#N/A N/A"])
     = Some [router_of_team "Inventory"].
Proof.
  split; [intros H; vm_compute in H; discriminate H|]. split.
  - eexists. split; [vm_compute; reflexivity|].
    split; [vm_compute; reflexivity|]. vm_compute. reflexivity.
  - split; vm_compute; reflexivity.
Qed.

(** * More of the program *)

(** ** Identifier generator: the MAC rule, shape and frame *)

Lemma length_app_str (s t : string) :
  String.length (s +:+ t) = String.length s + String.length t.
Proof. induction s as [|c s IH]; [done|]. rewrite app_cons. simpl. by rewrite IH. Qed.

Lemma drop_chars_length k s :
  String.length (Py.drop_chars k s) = String.length s - k.
Proof.
  revert k. induction s as [|c s IH]; intros [|k]; simpl; auto.
Qed.

Lemma last_chars_length n s : String.length (Py.last_chars n s) <= n.
Proof. unfold Py.last_chars. rewrite drop_chars_length. lia. Qed.

Lemma all_chars_app p (s t : string) :
  all_chars p (s +:+ t) = all_chars p s && all_chars p t.
Proof.
  induction s as [|c s IH]; [done|]. rewrite app_cons. simpl.
  by rewrite IH, andb_assoc.
Qed.

Lemma zeros_digits k : all_chars is_digit (Py.zeros k) = true.
Proof. induction k as [|k IH]; [done|]. simpl. exact IH. Qed.

Lemma zeros_length k : String.length (Py.zeros k) = k.
Proof. induction k as [|k IH]; [done|]. simpl. by rewrite IH. Qed.

Lemma string_of_uint_digits d :
  all_chars is_digit (NilEmpty.string_of_uint d) = true.
Proof. induction d; simpl; done. Qed.

Lemma str_of_nat_digits n : all_chars is_digit (Py.str_of_nat n) = true.
Proof. apply string_of_uint_digits. Qed.

Lemma str_of_nat_truthy n : Py.truthy (Py.str_of_nat n) = true.
Proof.
  unfold Py.str_of_nat.
  pose proof (DecimalNat.Unsigned.to_of (Nat.to_uint n)) as Hnorm.
  rewrite DecimalNat.Unsigned.of_to in Hnorm.
  by destruct (Nat.to_uint n).
Qed.

Lemma str_of_nat_inj n m : Py.str_of_nat n = Py.str_of_nat m -> n = m.
Proof.
  unfold Py.str_of_nat. intros H%string_of_uint_inj.
  by apply DecimalNat.Unsigned.to_uint_inj.
Qed.

Lemma zfill_str_digits w n :
  all_chars is_digit (Py.zfill w (Py.str_of_nat n)) = true
  /\ w <= String.length (Py.zfill w (Py.str_of_nat n)).
Proof.
  unfold Py.str_of_nat. rewrite zfill_string_of_uint. split.
  - by rewrite all_chars_app, zeros_digits, string_of_uint_digits.
  - rewrite length_app_str, zeros_length. lia.
Qed.

(** X1. For every record of a cleaning pass whose serial number is the
    sentinel "UNKNOWN" and whose MAC address is not, the identifier is
    "MC" followed by the last 4 characters of the MAC address (the whole
    address when it has at most 4), and the manager is unchanged. *)
Theorem X1_mac_used_without_serial
    (raw : list (list string)) (records : list InventoryRecord)
    (r : InventoryRecord) (self : Manager) :
  cleaning raw = Some records -> r ∈ records ->
  S_N r = "UNKNOWN" -> MAC_ID r <> "UNKNOWN" ->
  generate_identifier (S_N r) (MAC_ID r) self
    = ("MC" +:+ Py.last_chars 4 (MAC_ID r), self)
  /\ (String.length (MAC_ID r) <= 4 ->
      generate_identifier (S_N r) (MAC_ID r) self = ("MC" +:+ MAC_ID r, self)).
Proof.
  intros Hclean Hr Hsn Hmac. rewrite Hsn.
  destruct (cleaning_records _ _ _ Hclean Hr) as [row ->].
  pose proof (clean_record_normalised row) as Hnorm.
  assert (Hstrip : Py.strip (MAC_ID (clean_record row)) = MAC_ID (clean_record row)).
  { unfold record_cells in Hnorm.
    do 4 (apply Forall_cons in Hnorm as [_ Hnorm]).
    by apply Forall_cons in Hnorm as [[H _] _]. }
  assert (Hne : MAC_ID (clean_record row) <> "").
  { apply truthy_true. simpl. by apply or_default_truthy. }
  assert (Hid : generate_identifier "UNKNOWN" (MAC_ID (clean_record row)) self
                = ("MC" +:+ Py.last_chars 4 (MAC_ID (clean_record row)), self)).
  { unfold generate_identifier. simpl (Py.truthy "UNKNOWN" && _).
    cbv iota. rewrite lacking_false by done. by rewrite Hstrip. }
  split; [exact Hid|]. intros Hlen. by rewrite Hid, last_chars_short.
Qed.

Lemma X1_witness :
  let r := {| Sl_no := "1"; Team := "Net"; Device_model := "Router";
              S_N := "UNKNOWN"; MAC_ID := "AA:BB:CC:DD:EE:FF";
              Condition := "Good"; Assigned_to := "Lab"; Owner := "Ann" |} in
  generate_identifier (S_N r) (MAC_ID r) new_manager
    = ("MC" +:+ Py.last_chars 4 (MAC_ID r), new_manager)
  /\ (String.length (MAC_ID r) <= 4 ->
      generate_identifier (S_N r) (MAC_ID r) new_manager
      = ("MC" +:+ MAC_ID r, new_manager)).
Proof.
  intros r.
  apply (X1_mac_used_without_serial
           [column_names;
            ["1"; "Net"; "Router"; ""; "AA:BB:CC:DD:EE:FF"; "Good"; "Lab"; "Ann"]]
           [r] r new_manager).
  - vm_compute. reflexivity.
  - constructor.
  - reflexivity.
  - discriminate.
Defined.

(** X2. Whatever the serial number and the MAC address are, the
    identifier generator never touches the hostname registry.  When one
    of them is usable the manager is returned as it was and the
    identifier is "SN" or "MC" followed by at most 4 characters; when both
    are lacking the counter grows by exactly one and the identifier is
    "DEV" followed by at least 4 characters, all decimal digits. *)
Theorem X2_identifier_shape_and_frame (serial mac : string) (self : Manager) :
  let identifier := fst (generate_identifier serial mac self) in
  let self' := snd (generate_identifier serial mac self) in
  hostname_counters self' = hostname_counters self
  /\ (fallback_device (serial, mac) = false ->
      self' = self
      /\ exists t, (identifier = "SN" +:+ t \/ identifier = "MC" +:+ t)
                   /\ String.length t <= 4)
  /\ (fallback_device (serial, mac) = true ->
      counter self' = counter self + 1
      /\ exists t, identifier = "DEV" +:+ t
                   /\ 4 <= String.length t /\ all_chars is_digit t = true).
Proof.
  intros identifier self'. subst identifier self'.
  unfold fallback_device, generate_identifier. rewrite !usable_lacking. simpl.
  destruct (lacking serial), (lacking mac); simpl; (split; [done|]);
    split; intros H; try discriminate H; (split; [done|]); eexists.
  - split; [done|].
    destruct (zfill_str_digits 4 (counter self)) as [Hd Hl]. by split.
  - split; [by right|]. apply last_chars_length.
  - split; [by left|]. apply last_chars_length.
  - split; [by left|]. apply last_chars_length.
Qed.

Lemma X2_witness :
  counter (snd (generate_identifier "" "UNKNOWN" new_manager)) = 2
  /\ snd (generate_identifier "ABC12345" "" new_manager) = new_manager.
Proof.
  destruct (X2_identifier_shape_and_frame "" "UNKNOWN" new_manager)
    as (_ & _ & Hdev).
  destruct (X2_identifier_shape_and_frame "ABC12345" "" new_manager)
    as (_ & Hsn & _).
  split.
  - apply Hdev. reflexivity.
  - apply Hsn. reflexivity.
Defined.

(** ** Hostname allocator: registry, distinct names, valid characters *)

Lemma allocate_all_length bases self :
  length (fst (allocate_all bases self)) = length bases.
Proof.
  revert self. induction bases as [|b bases IH]; intros self; [done|].
  rewrite allocate_all_cons. simpl. by rewrite IH.
Qed.

Lemma allocate_all_counter bases self :
  counter (snd (allocate_all bases self)) = counter self.
Proof.
  revert self. induction bases as [|b bases IH]; intros self; [done|].
  rewrite allocate_all_cons. cbn [snd].
  by rewrite IH, generate_unique_hostname_counter.
Qed.

(** The name given at position [i] of a run, from the number of earlier
    requests for the same base. *)
Lemma allocate_all_nth bases i b :
  bases !! i = Some b ->
  fst (allocate_all bases new_manager) !! i
  = Some (let k := occurrences b (take i bases) in
          if Nat.eqb k 0 then b else b +:+ "-" +:+ Py.str_of_nat k).
Proof.
  intros Hi. rewrite (allocate_all_lookup _ _ _ _ Hi). f_equal.
  unfold generate_unique_hostname. rewrite allocate_all_registry.
  unfold seen. simpl. rewrite lookup_empty.
  destruct (occurrences b (take i bases)) as [|k]; simpl; [done|].
  by rewrite Nat.add_0_r.
Qed.

Lemma occurrences_take_lt bases i j b :
  i < j -> bases !! i = Some b ->
  occurrences b (take i bases) < occurrences b (take j bases).
Proof.
  revert i j. induction bases as [|x bases IH]; intros i j Hij Hi; [done|].
  destruct j as [|j]; [lia|]. destruct i as [|i]; simpl in Hi.
  - injection Hi as ->. cbn [take]. rewrite occurrences_cons.
    rewrite String.eqb_refl. unfold occurrences at 1. simpl. lia.
  - cbn [take]. rewrite !occurrences_cons.
    assert (occurrences b (take i bases) < occurrences b (take j bases))
      by (apply IH; [lia|done]).
    lia.
Qed.

Lemma app_neq_self (s t : string) c : s <> s +:+ String c t.
Proof. induction s as [|a s IH]; [done|]. rewrite app_cons. intros [=]. auto. Qed.

(** A text ending in a hyphen and digits splits in one way only. *)
Lemma hyphen_digits_inj (a a' d d' : string) :
  all_chars is_digit d = true -> all_chars is_digit d' = true ->
  a +:+ "-" +:+ d = a' +:+ "-" +:+ d' -> a = a' /\ d = d'.
Proof.
  intros Hd Hd'. revert a'. induction a as [|c a IH]; intros [|c' a'].
  - rewrite !app_empty_l, !app_cons, !app_empty_l. by intros [=].
  - rewrite !app_empty_l, !app_cons, !app_empty_l. intros [= <- ->].
    rewrite all_chars_app in Hd. simpl in Hd.
    by rewrite andb_false_r in Hd.
  - rewrite !app_empty_l, !app_cons, !app_empty_l. intros [= -> <-].
    rewrite all_chars_app in Hd'. simpl in Hd'.
    by rewrite andb_false_r in Hd'.
  - rewrite !app_cons. intros [= -> H]. destruct (IH a' H) as [-> ->]. done.
Qed.

Lemma after_prefix_app (p t : string) : after_prefix p (p +:+ t) = Some t.
Proof.
  induction p as [|c p IH]; [by destruct t|].
  rewrite app_cons. simpl. by rewrite Ascii.eqb_refl.
Qed.

Lemma suffixed_form_derived b k :
  suffixed_form (b +:+ "-" +:+ Py.str_of_nat k) b = true.
Proof.
  unfold suffixed_form. rewrite after_prefix_app, app_cons, app_empty_l.
  by rewrite str_of_nat_truthy, str_of_nat_digits.
Qed.

Lemma no_suffixed_base_lookup bases i j b b' :
  no_suffixed_base bases = true ->
  bases !! i = Some b -> bases !! j = Some b' -> suffixed_form b b' = false.
Proof.
  intros H Hi Hj. unfold no_suffixed_base in H.
  rewrite forallb_forall in H.
  apply list_elem_of_lookup_2, list_elem_of_In in Hi, Hj.
  specialize (H b Hi). rewrite forallb_forall in H.
  specialize (H b' Hj). by apply negb_true_iff in H.
Qed.

(** X3. After any run of requests from a fresh manager, the registry
    holds for every base exactly the number of times it was requested
    (and no entry for a base that was never requested), the fallback
    counter is still 1, and one hostname was returned per request. *)
Theorem X3_registry_counts_requests (bases : list string) (b : string) :
  let self := snd (allocate_all bases new_manager) in
  hostname_counters self !! b
    = (if Nat.eqb (occurrences b bases) 0 then None
       else Some (occurrences b bases))
  /\ counter self = 1
  /\ length (fst (allocate_all bases new_manager)) = length bases.
Proof.
  intros self. subst self. split; [|split].
  - rewrite allocate_all_registry. unfold seen. simpl. rewrite lookup_empty.
    destruct (Nat.eqb (occurrences b bases) 0); [done|]. by rewrite Nat.add_0_r.
  - by rewrite allocate_all_counter.
  - apply allocate_all_length.
Qed.

Lemma same_base_distinct_lt bases i j b h h' :
  i < j ->
  bases !! i = Some b -> bases !! j = Some b ->
  fst (allocate_all bases new_manager) !! i = Some h ->
  fst (allocate_all bases new_manager) !! j = Some h' ->
  h <> h'.
Proof.
  intros Hij Hi Hj Hh Hh'.
  rewrite (allocate_all_nth _ _ _ Hi) in Hh.
  rewrite (allocate_all_nth _ _ _ Hj) in Hh'.
  pose proof (occurrences_take_lt bases i j b Hij Hi) as Hlt.
  injection Hh as <-. injection Hh' as <-. cbn zeta.
  destruct (Nat.eqb_spec (occurrences b (take j bases)) 0) as [H0|_]; [lia|].
  destruct (Nat.eqb_spec (occurrences b (take i bases)) 0) as [_|_].
  - apply app_neq_self.
  - intros Heq. apply app_inj_l, (app_inj_l "-"), str_of_nat_inj in Heq. lia.
Qed.

Lemma same_base_distinct bases i j b h h' :
  i <> j ->
  bases !! i = Some b -> bases !! j = Some b ->
  fst (allocate_all bases new_manager) !! i = Some h ->
  fst (allocate_all bases new_manager) !! j = Some h' ->
  h <> h'.
Proof.
  intros Hij Hi Hj Hh Hh'. destruct (decide (i < j)) as [Hlt|Hge].
  - by apply (same_base_distinct_lt bases i j b).
  - intros Heq. symmetry in Heq. revert Heq.
    apply (same_base_distinct_lt bases j i b); [lia|done..].
Qed.

(** X4. Two requests of a run for the same base never receive the same
    hostname. *)
Theorem X4_same_base_distinct
    (bases : list string) (i j : nat) (b h h' : string) :
  i <> j ->
  bases !! i = Some b -> bases !! j = Some b ->
  fst (allocate_all bases new_manager) !! i = Some h ->
  fst (allocate_all bases new_manager) !! j = Some h' ->
  h <> h'.
Proof.
  apply same_base_distinct.
Qed.

Lemma X4_witness : "A-SN1" <> "A-SN1-2".
Proof.
  apply (X4_same_base_distinct ["A-SN1"; "A-SN1"; "B-SN2"; "A-SN1"] 0 3 "A-SN1");
    first [reflexivity | lia].
Defined.

(** X5. When no requested base is another requested base followed by a
    hyphen and decimal digits, the hostnames of a run are pairwise
    distinct. *)
Theorem X5_unique_without_suffixed_bases (bases : list string) :
  no_suffixed_base bases = true ->
  NoDup (fst (allocate_all bases new_manager)).
Proof.
  intros Hbases. apply NoDup_alt. intros i j h Hi Hj.
  assert (Hbi : is_Some (bases !! i)).
  { apply lookup_lt_is_Some. rewrite <- (allocate_all_length bases new_manager).
    by apply lookup_lt_is_Some. }
  assert (Hbj : is_Some (bases !! j)).
  { apply lookup_lt_is_Some. rewrite <- (allocate_all_length bases new_manager).
    by apply lookup_lt_is_Some. }
  destruct Hbi as [bi Hbi], Hbj as [bj Hbj].
  destruct (decide (i = j)) as [|Hne]; [done|]. exfalso.
  destruct (decide (bi = bj)) as [->|Hb].
  { by apply (same_base_distinct bases i j bj h h Hne). }
  pose proof (no_suffixed_base_lookup _ _ _ _ _ Hbases Hbi Hbj) as Hij.
  pose proof (no_suffixed_base_lookup _ _ _ _ _ Hbases Hbj Hbi) as Hji.
  rewrite (allocate_all_nth _ _ _ Hbi) in Hi.
  rewrite (allocate_all_nth _ _ _ Hbj) in Hj.
  injection Hi as Hi. injection Hj as Hj. cbn zeta in Hi, Hj.
  destruct (Nat.eqb (occurrences bi (take i bases)) 0),
           (Nat.eqb (occurrences bj (take j bases)) 0).
  - congruence.
  - assert (Heq : bi = bj +:+ "-" +:+ Py.str_of_nat (occurrences bj (take j bases)))
      by congruence.
    rewrite Heq, suffixed_form_derived in Hij. done.
  - assert (Heq : bj = bi +:+ "-" +:+ Py.str_of_nat (occurrences bi (take i bases)))
      by congruence.
    rewrite Heq, suffixed_form_derived in Hji. done.
  - rewrite <- Hj in Hi.
    apply hyphen_digits_inj in Hi as [? _]; [done|apply str_of_nat_digits..].
Qed.

Lemma X5_witness :
  NoDup (fst (allocate_all ["A-SN1"; "B-SN2"; "A-SN1"; "A-SN1-x"] new_manager)).
Proof.
  apply X5_unique_without_suffixed_bases. vm_compute. reflexivity.
Defined.

Lemma all_chars_filter p (s : string) :
  all_chars p (Py.filter_chars p s) = true.
Proof.
  induction s as [|c s IH]; [done|]. simpl.
  destruct (p c) eqn:Hc; [|done]. simpl. by rewrite Hc.
Qed.

Lemma filter_chars_app p (s t : string) :
  Py.filter_chars p (s +:+ t) = Py.filter_chars p s +:+ Py.filter_chars p t.
Proof.
  induction s as [|c s IH]; [done|]. rewrite app_cons. simpl.
  destruct (p c); [|done]. by rewrite app_cons, IH.
Qed.

Lemma all_chars_impl (p q : ascii -> bool) (s : string) :
  (forall c, p c = true -> q c = true) ->
  all_chars p s = true -> all_chars q s = true.
Proof.
  intros Hpq. induction s as [|c s IH]; [done|]. simpl.
  intros [Hc Hs]%andb_true_iff. by rewrite (Hpq c Hc), IH.
Qed.

Lemma digit_hostname_char c : is_digit c = true -> hostname_char c = true.
Proof.
  unfold is_digit, hostname_char, Py.isalnum. intros ->. done.
Qed.

Lemma hostname_char_not_space c :
  hostname_char c = true -> negb (Py.isspace c) = true.
Proof.
  destruct c as [[] [] [] [] [] [] [] []]; vm_compute; done.
Qed.

Lemma base_hostname_chars host_data identifier :
  all_chars hostname_char (base_hostname_of host_data identifier) = true
  /\ Py.truthy (base_hostname_of host_data identifier) = true.
Proof.
  unfold base_hostname_of. split; [apply all_chars_filter|].
  rewrite !filter_chars_app. apply truthy_app_r. done.
Qed.

Lemma allocate_hostname_valid (host_data : InventoryRecord) (self : Manager) :
  let hostname := fst (allocate_hostname host_data self) in
  hostname <> ""
  /\ all_chars hostname_char hostname = true
  /\ all_chars (fun c => negb (Py.isspace c)) hostname = true.
Proof.
  intros hostname.
  assert (H : Py.truthy hostname = true /\ all_chars hostname_char hostname = true).
  { subst hostname. unfold allocate_hostname.
    destruct (generate_identifier _ _ self) as [identifier self1].
    destruct (base_hostname_chars host_data identifier) as [Hchars Hne].
    unfold generate_unique_hostname.
    destruct (hostname_counters self1 !! _) as [count|]; cbn [fst]; [|done].
    split.
    - destruct (base_hostname_of host_data identifier); done.
    - rewrite !all_chars_app, Hchars. simpl.
      apply (all_chars_impl is_digit); [apply digit_hostname_char|].
      apply str_of_nat_digits. }
  destruct H as [Hne Hchars]. split; [by apply truthy_true|].
  split; [done|].
  by apply (all_chars_impl hostname_char); [apply hostname_char_not_space|].
Qed.

(** X6. Whatever the record and the manager are, the hostname that
    [create_or_update_host] allocates is not empty and is made only of
    letters, digits, hyphens, underscores and dots; in particular it
    holds no whitespace. *)
Theorem X6_hostname_characters (host_data : InventoryRecord) (self : Manager) :
  let hostname := fst (allocate_hostname host_data self) in
  hostname <> ""
  /\ all_chars hostname_char hostname = true
  /\ all_chars (fun c => negb (Py.isspace c)) hostname = true.
Proof. apply allocate_hostname_valid. Qed.

(** ** Record cleaner: when it fails, what the frame looks like *)

Lemma any_nonblank_nonempty row : any_nonblank row = true -> row <> [].
Proof. by intros H ->. Qed.

Lemma clean_rows_kept raw : Forall kept_row (clean_rows raw).
Proof.
  induction raw as [|row raw IH]; [constructor|]. simpl.
  destruct (any_nonblank row) eqn:Hany; [|done].
  constructor; [|done]. split.
  - rewrite take_map_strip. apply Forall_forall. intros x Hx.
    apply list_elem_of_fmap in Hx as (y & -> & _). apply strip_idem.
  - rewrite length_take, length_map.
    apply any_nonblank_nonempty in Hany. destruct row; [done|].
    cbn [length]. lia.
Qed.

Lemma clean_rows_filter raw :
  length (clean_rows raw) = length (List.filter any_nonblank raw).
Proof.
  induction raw as [|row raw IH]; [done|]. simpl.
  destruct (any_nonblank row); simpl; by rewrite IH.
Qed.

Lemma frame_rows_kept w data :
  Forall kept_row data ->
  List.filter (fun row => negb (forallb is_missing row))
    (map (map (option_map Py.strip)) (map (pad_row w) data))
  = map (pad_row w) data.
Proof.
  induction 1 as [|row data [Hstrip Hlen] Hdata IH]; [done|].
  cbn [map]. rewrite strip_pad_row by done.
  cbn [List.filter]. rewrite pad_row_kept by (destruct row; simpl in *; [lia|done]).
  by rewrite IH.
Qed.

(** What [clean_csv] returns, from the rows that survive its loop. *)
Lemma clean_csv_kept raw header data :
  clean_rows raw = header :: data -> clean_csv raw = new_frame data header.
Proof.
  intros Hrows. pose proof (clean_rows_kept raw) as Hkept.
  rewrite Hrows in Hkept. apply Forall_cons in Hkept as [[_ Hlen] Hdata].
  unfold clean_csv. rewrite Hrows, take_ge by lia.
  unfold new_frame. destruct data as [|row data]; [done|].
  destruct (Nat.eqb _ _); [|done].
  unfold dropna_all, strip_frame. cbn [columns frame_rows].
  by rewrite frame_rows_kept.
Qed.

(** X7. [clean_csv] fails exactly when no row of the input has a
    non-blank cell, or when there are data rows and the longest of them
    (cut to 8 cells) has not as many cells as the header row (cut to 8
    cells): wider or narrower, the frame cannot be built. *)
Theorem X7_clean_csv_failure (raw : list (list string)) :
  clean_csv raw = None
  <-> clean_rows raw = []
      \/ exists header data,
           clean_rows raw = header :: data /\ data <> []
           /\ max_width data <> length header.
Proof.
  destruct (clean_rows raw) as [|header data] eqn:Hrows.
  - unfold clean_csv. rewrite Hrows. split; [by left|done].
  - rewrite (clean_csv_kept raw header data Hrows). split.
    + intros Hnone. right. exists header, data. split; [done|].
      destruct (decide (data = [])) as [->|Hne]; [done|]. split; [done|].
      rewrite new_frame_nonempty in Hnone by done.
      by destruct (Nat.eqb_spec (max_width data) (length header)).
    + intros [|(header' & data' & [= <- <-] & Hne & Hw)]; [done|].
      rewrite new_frame_nonempty by done.
      by destruct (Nat.eqb_spec (max_width data) (length header)).
Qed.

Lemma pad_row_length w row : length row <= w -> length (pad_row w row) = w.
Proof.
  intros Hlen. unfold pad_row.
  rewrite length_app, length_map, length_replicate. lia.
Qed.

Lemma pad_row_stripped w row :
  Forall (fun x => Py.strip x = x) row -> stripped_cells (pad_row w row).
Proof.
  intros Hrow. unfold stripped_cells, pad_row. apply Forall_app. split.
  - induction Hrow; constructor; done.
  - by apply Forall_replicate.
Qed.

Lemma cleaned_frame_shape (raw : list (list string)) (df : DataFrame) :
  clean_csv raw = Some df ->
  1 <= length (columns df) <= 8
  /\ length (frame_rows df) = length (List.filter any_nonblank raw) - 1
  /\ Forall (fun row => length row = length (columns df)) (frame_rows df)
  /\ Forall stripped_cells (frame_rows df).
Proof.
  intros Hdf. pose proof (clean_rows_kept raw) as Hkept.
  pose proof (clean_rows_filter raw) as Hcount.
  destruct (clean_rows raw) as [|header data] eqn:Hrows.
  { unfold clean_csv in Hdf. by rewrite Hrows in Hdf. }
  rewrite (clean_csv_kept raw header data Hrows) in Hdf.
  apply Forall_cons in Hkept as [[_ Hlen] Hdata]. simpl in Hcount.
  destruct (decide (data = [])) as [->|Hne].
  - injection Hdf as <-. simpl in *. repeat split; try lia; constructor.
  - rewrite new_frame_nonempty in Hdf by done.
    destruct (Nat.eqb_spec (max_width data) (length header)) as [Hw|]; [|done].
    injection Hdf as <-. cbn [columns frame_rows].
    split; [done|]. split; [rewrite length_map; lia|]. split.
    + apply Forall_fmap, Forall_forall. intros row Hrow. simpl.
      rewrite pad_row_length; [done|]. by apply max_width_bound.
    + apply Forall_fmap, Forall_forall. intros row Hrow. simpl.
      apply pad_row_stripped. eapply Forall_forall in Hdata; [|done].
      apply Hdata.
Qed.

(** X8. A frame returned by [clean_csv] has between 1 and 8 columns, one
    row per surviving data row, as many cells in every row as there are
    columns (short rows are filled with missing values), and only
    stripped texts in its cells. *)
Theorem X8_cleaned_frame_shape (raw : list (list string)) (df : DataFrame) :
  clean_csv raw = Some df ->
  1 <= length (columns df) <= 8
  /\ length (frame_rows df) = length (List.filter any_nonblank raw) - 1
  /\ Forall (fun row => length row = length (columns df)) (frame_rows df)
  /\ Forall stripped_cells (frame_rows df).
Proof. apply cleaned_frame_shape. Qed.

Lemma X8_witness :
  1 <= length (columns {| columns := column_names;
                          frame_rows := [map Some (record_cells sample_record)] |}) <= 8.
Proof.
  apply (X8_cleaned_frame_shape sample_raw). vm_compute. reflexivity.
Defined.

(** ** Record cleaner: the second stage and the whole pass *)

Lemma clean_record_kept row : any_nonempty (clean_record row) = true.
Proof.
  apply any_nonempty_tidy, record_cells_tidy.
  - apply clean_record_normalised.
  - apply clean_record_defaulted.
Qed.

Lemma filter_all_true {A} (f : A -> bool) (l : list A) :
  Forall (fun x => f x = true) l -> List.filter f l = l.
Proof. induction 1 as [|x l Hx Hl IH]; [done|]. simpl. by rewrite Hx, IH. Qed.

Lemma read_inventory_csv_rows (file : DataFrame) :
  (read_inventory_csv file = None <-> length (columns file) < 8)
  /\ (forall records,
        read_inventory_csv file = Some records ->
        records
        = map (fun row => clean_record (map read_cell (take 8 row)))
            (frame_rows file)
        /\ length records = length (frame_rows file)).
Proof.
  unfold read_inventory_csv, read_csv8.
  destruct (Nat.leb_spec 8 (length (columns file))) as [Hle|Hlt].
  - split; [split; [done|lia]|]. intros records [= <-].
    rewrite filter_all_true.
    + rewrite map_map. split; [done|]. by rewrite length_map.
    + apply Forall_fmap, Forall_forall. intros row _. apply clean_record_kept.
  - split; [done|]. intros records [=].
Qed.

(** X9. [read_inventory_csv] fails exactly when the cleaned file has fewer
    than 8 columns.  Otherwise it returns one record per row of the file,
    in order: the filter that closes it never removes a row, because the
    defaults have made some fields non-empty. *)
Theorem X9_read_inventory_csv_rows (file : DataFrame) :
  (read_inventory_csv file = None <-> length (columns file) < 8)
  /\ (forall records,
        read_inventory_csv file = Some records ->
        records
        = map (fun row => clean_record (map read_cell (take 8 row)))
            (frame_rows file)
        /\ length records = length (frame_rows file)).
Proof. apply read_inventory_csv_rows. Qed.

(** X10. When a cleaning pass succeeds, it yields exactly one record per
    input row that has a non-blank cell, the first such row (the header)
    excepted. *)
Theorem X10_one_record_per_row
    (raw : list (list string)) (records : list InventoryRecord) :
  cleaning raw = Some records ->
  length records = length (List.filter any_nonblank raw) - 1.
Proof.
  unfold cleaning. destruct (clean_csv raw) as [df|] eqn:Hdf; [|done].
  intros Hrecords.
  destruct (cleaned_frame_shape raw df Hdf) as (_ & Hcount & _).
  destruct (read_inventory_csv_rows df) as [_ Hrows].
  destruct (Hrows records Hrecords) as [_ Hlen]. lia.
Qed.

Lemma X10_witness :
  length [sample_record]
  = length (List.filter any_nonblank
              (sample_raw ++ [[" "; ""]; []])) - 1.
Proof.
  apply X10_one_record_per_row. vm_compute. reflexivity.
Defined.

Lemma X9_witness :
  read_inventory_csv
    {| columns := column_names;
       frame_rows := [map Some (record_cells sample_record)] |}
  = Some [sample_record]
  /\ length [sample_record] = 1.
Proof.
  split; [vm_compute; reflexivity|].
  destruct (X9_read_inventory_csv_rows
              {| columns := column_names;
                 frame_rows := [map Some (record_cells sample_record)] |})
    as [_ Hrows].
  apply (Hrows [sample_record]). vm_compute. reflexivity.
Defined.

(** ** Record cleaner: from the cells of a row to the fields *)

(** What the second stage reads in column [k] of a surviving row: the
    cell of the row, missing when the row is short. *)
Lemma cell_read_pad w cells k :
  k < 8 ->
  cell (map read_cell (take 8 (pad_row w cells))) k = read_cell (cells !! k).
Proof.
  intros Hk. unfold cell.
  change (map read_cell (take 8 (pad_row w cells)))
    with (read_cell <$> take 8 (pad_row w cells)).
  rewrite list_lookup_fmap, lookup_take_lt by done. unfold pad_row.
  change (map Some cells) with (Some <$> cells).
  destruct (cells !! k) as [x|] eqn:Hcell.
  - rewrite lookup_app_l.
    + by rewrite list_lookup_fmap, Hcell.
    + rewrite length_fmap. by apply lookup_lt_Some in Hcell.
  - apply lookup_ge_None in Hcell.
    rewrite lookup_app_r by (by rewrite length_fmap).
    destruct (replicate _ _ !! _) as [c|] eqn:Hpad; [|done].
    apply lookup_replicate in Hpad as [-> _]. done.
Qed.

(** The records of a cleaning pass, from the rows that survive the loop
    of the first stage. *)
Lemma cleaning_rows raw records :
  cleaning raw = Some records ->
  exists header data,
    clean_rows raw = header :: data
    /\ records
       = map (fun cells =>
                clean_record
                  (map read_cell (take 8 (pad_row (length header) cells))))
           data.
Proof.
  unfold cleaning. destruct (clean_csv raw) as [df|] eqn:Hdf; [|done].
  intros Hrecords.
  destruct (clean_rows raw) as [|header data] eqn:Hrows.
  { unfold clean_csv in Hdf. by rewrite Hrows in Hdf. }
  exists header, data. split; [done|].
  rewrite (clean_csv_kept raw header data Hrows) in Hdf.
  destruct (read_inventory_csv_rows df) as [_ Hread].
  destruct (Hread records Hrecords) as [-> _].
  destruct (decide (data = [])) as [->|Hne].
  - by injection Hdf as <-.
  - rewrite new_frame_nonempty in Hdf by done.
    destruct (Nat.eqb_spec (max_width data) (length header)) as [Hw|]; [|done].
    injection Hdf as <-. cbn [frame_rows]. by rewrite map_map, Hw.
Qed.

(** C4, as the code has it. The records of a cleaning pass are, in
    order, those of the input rows that survive the loop of the first
    stage, the header excepted.  Each field comes from the cell of its
    own column in that row, as the reader of the cleaned file gives it
    (missing when the cell is empty, absent, or a text that the reader
    takes for a missing value): the sequence number 'Sl.no' is the
    whitespace-normalised text of its cell and has no default, so it is
    the empty string when its cell is missing; each of the 7 other fields
    is the whitespace-normalised text of its cell when that is not empty,
    and otherwise the default of its column ("Inventory",
    "Unknown Device", "UNKNOWN", "UNKNOWN", "Unknown", "Unassigned",
    "Unassigned"), so it is never empty. *)
Theorem C4_defaulted_fields_nonempty
    (raw : list (list string)) (records : list InventoryRecord) :
  cleaning raw = Some records ->
  Forall (fun r => Forall (fun x => x <> "") (defaulted_cells r)) records
  /\ exists header data,
       clean_rows raw = header :: data
       /\ length records = length data
       /\ forall i cells r,
            data !! i = Some cells -> records !! i = Some r ->
            let parsed k := read_cell (cells !! k) in
            Sl_no r = clean_value (parsed 0)
            /\ Team r = or_default "Inventory" (clean_value (parsed 1))
            /\ Device_model r
               = or_default "Unknown Device" (clean_value (parsed 2))
            /\ S_N r = or_default "UNKNOWN" (clean_value (parsed 3))
            /\ MAC_ID r = or_default "UNKNOWN" (clean_value (parsed 4))
            /\ Condition r = or_default "Unknown" (clean_value (parsed 5))
            /\ Assigned_to r = or_default "Unassigned" (clean_value (parsed 6))
            /\ Owner r = or_default "Unassigned" (clean_value (parsed 7))
            /\ (forall k,
                  k < 8 -> cells !! k = None \/ cells !! k = Some "" ->
                  record_cells r !! k = column_defaults !! k).
Proof.
  intros Hclean.
  destruct (cleaning_rows raw records Hclean) as (header & data & Hrows & ->).
  split.
  { apply Forall_fmap, Forall_forall. intros cells _. simpl.
    apply clean_record_defaulted. }
  exists header, data. split; [done|]. split; [by rewrite length_map|].
  intros i cells r Hcells Hr parsed.
  change (map ?f data) with (f <$> data) in Hr.
  rewrite list_lookup_fmap, Hcells in Hr. injection Hr as <-.
  unfold clean_record.
  cbn [Sl_no Team Device_model S_N MAC_ID Condition Assigned_to Owner
       record_cells].
  rewrite !cell_read_pad by lia.
  do 8 (split; [reflexivity|]).
  intros k Hk Hcell.
  assert (Hparsed : read_cell (cells !! k) = None)
    by (by destruct Hcell as [-> | ->]).
  clear Hcell. subst parsed.
  do 8 (destruct k as [|k]; [simpl in *; by rewrite Hparsed|]). lia.
Qed.

Lemma C4_witness :
  Forall (fun r => Forall (fun x => x <> "") (defaulted_cells r))
    [unnumbered_record]
  /\ Sl_no unnumbered_record = ""
  /\ MAC_ID unnumbered_record = "UNKNOWN".
Proof.
  destruct (C4_defaulted_fields_nonempty unnumbered_raw [unnumbered_record])
    as (Hnonempty & header & data & Hrows & Hlen & Hfields);
    [vm_compute; reflexivity|].
  split; [exact Hnonempty|].
  injection Hrows as <- <-.
  destruct (Hfields 0 [""; "Net"; "Router"; "ABC12345"; ""; "Good"; "Lab"; "Ann"]
              unnumbered_record eq_refl eq_refl)
    as (Hsl & _ & _ & _ & Hmac & _).
  split; [exact Hsl|exact Hmac].
Defined.

(** C4 as stated fails: a row with an empty sequence-number cell survives
    cleaning, and the 'Sl.no' field of its record is the empty string. *)
Lemma C4_counterexample :
  cleaning unnumbered_raw = Some [unnumbered_record]
  /\ Sl_no unnumbered_record = ""
  /\ ~ Forall (fun x => x <> "") (record_cells unnumbered_record).
Proof.
  split; [vm_compute; reflexivity|]. split; [reflexivity|].
  intros H. apply Forall_cons in H as [H _]. by apply H.
Qed.

(** ** Record cleaner: values, defaults and extra columns *)

Lemma split_go_nil cur s :
  Py.split_go cur s = [] <-> cur = "" /\ whitespace_only s = true.
Proof.
  revert cur. induction s as [|c s IH]; intros cur; simpl.
  - destruct cur; simpl; split; try done. by intros [? _].
  - destruct (Py.isspace c); simpl.
    + destruct cur as [|a cur]; simpl.
      * rewrite IH. split; by intros [_ ?].
      * split; [done|by intros [? _]].
    + rewrite IH. split; [|by intros [_ ?]].
      intros [H _]. by destruct cur.
Qed.

Lemma join_nil_words ws :
  Forall (fun w => is_word w = true) ws -> Py.join " " ws = "" -> ws = [].
Proof.
  destruct 1 as [|w ws Hw Hws]; [done|]. intros Hjoin.
  apply andb_true_iff in Hw as [Hne _].
  pose proof (join_truthy " " w ws Hne) as H. by rewrite Hjoin in H.
Qed.

Lemma clean_value_empty s :
  clean_value (Some s) = "" <-> whitespace_only s = true.
Proof.
  simpl. split.
  - intros H%join_nil_words; [|apply split_words].
    by apply split_go_nil in H as [_ ?].
  - intros H. assert (Hs : Py.split s = []) by (by apply split_go_nil).
    by rewrite Hs.
Qed.

(** X11. Cleaning a value keeps its words, in order ([split] gives the
    same list before and after); the cleaned value has no whitespace at
    its ends and cleaning it again changes nothing. *)
Theorem X11_clean_value_keeps_words (s : string) :
  let x := clean_value (Some s) in
  Py.split x = Py.split s
  /\ Forall (fun w => is_word w = true) (Py.split s)
  /\ Py.strip x = x
  /\ clean_value (Some x) = x.
Proof.
  intros x. subst x. split; [|split].
  - simpl. apply split_join, split_words.
  - apply split_words.
  - apply (clean_value_normalised (Some s)).
Qed.

(** X12. A cell is replaced by the default of its column exactly when it
    is missing or holds whitespace only: the cleaned value is empty if
    and only if every character of the cell is whitespace, a missing or
    whitespace-only cell yields the default, and any other cell yields
    its cleaned value, which is not empty. *)
Theorem X12_default_for_blank_cells (default s : string) :
  (clean_value (Some s) = "" <-> whitespace_only s = true)
  /\ or_default default (clean_value None) = default
  /\ (whitespace_only s = true ->
      or_default default (clean_value (Some s)) = default)
  /\ (whitespace_only s = false ->
      or_default default (clean_value (Some s)) = clean_value (Some s)
      /\ clean_value (Some s) <> "").
Proof.
  split; [apply clean_value_empty|]. split; [done|]. split.
  - intros H%clean_value_empty. by rewrite H.
  - intros H.
    assert (Hne : clean_value (Some s) <> "").
    { intros Hx%clean_value_empty. congruence. }
    split; [by apply or_default_nonempty|done].
Qed.

Lemma X12_witness :
  or_default "Inventory" (clean_value (Some (String "009" "  "))) = "Inventory"
  /\ or_default "Inventory" (clean_value (Some " Net   Ops ")) = "Net Ops".
Proof.
  destruct (X12_default_for_blank_cells "Inventory" (String "009" "  "))
    as (_ & _ & Hblank & _).
  destruct (X12_default_for_blank_cells "Inventory" " Net   Ops ")
    as (_ & _ & _ & Htext).
  split.
  - apply Hblank. reflexivity.
  - apply Htext. reflexivity.
Defined.

Lemma any_nonblank_take n row :
  any_nonblank (take n row) = true -> any_nonblank row = true.
Proof.
  unfold any_nonblank. revert n. induction row as [|x row IH]; intros [|n];
    simpl; try done.
  intros [H|H]%orb_true_iff; [by rewrite H|].
  rewrite (IH n H). apply orb_true_r.
Qed.

Lemma clean_rows_take_8 raw :
  Forall content_in_first_8 raw ->
  clean_rows (map (take 8) raw) = clean_rows raw.
Proof.
  induction 1 as [|row raw Hrow Hraw IH]; [done|]. simpl.
  assert (Hany : any_nonblank (take 8 row) = any_nonblank row).
  { destruct (any_nonblank row) eqn:H; [by apply Hrow|].
    destruct (any_nonblank (take 8 row)) eqn:H'; [|done].
    apply any_nonblank_take in H'. congruence. }
  rewrite Hany, IH.
  destruct (any_nonblank row); [|done].
  by rewrite !take_map_strip, take_take, Nat.min_id.
Qed.

(** X13. Cells beyond the 8th column never reach the records: when every
    row that has a non-blank cell has one among its first 8 cells,
    cutting every input row to 8 cells changes neither the cleaned frame
    nor the records. *)
Theorem X13_extra_columns_ignored (raw : list (list string)) :
  Forall content_in_first_8 raw ->
  clean_csv (map (take 8) raw) = clean_csv raw
  /\ cleaning (map (take 8) raw) = cleaning raw.
Proof.
  intros Hraw. unfold cleaning, clean_csv.
  by rewrite clean_rows_take_8.
Qed.

Lemma X13_witness :
  let raw := [column_names ++ ["Notes"];
              ["1"; "Net Ops"; "Router"; "ABC12345"; "AA:BB:CC:DD:EE:FF";
               "Good"; "Lab"; "Ann"; "spare part"; "x"]] in
  clean_csv (map (take 8) raw) = clean_csv raw
  /\ cleaning (map (take 8) raw) = cleaning raw.
Proof.
  intros raw. apply X13_extra_columns_ignored.
  repeat (constructor; [intros _; reflexivity|]). constructor.
Defined.

(** ** Remote directory client: which requests are sent *)

Lemma create_not_in_get group_name :
  HostgroupCreate group_name ∉ [HostgroupGet group_name].
Proof. by intros ?%list_elem_of_singleton. Qed.

Lemma create_in_get_create group_name :
  HostgroupCreate group_name
  ∈ [HostgroupGet group_name; HostgroupCreate group_name].
Proof. apply list_elem_of_further, list_elem_of_here. Qed.

(** How the group resolution goes, from the reply to the lookup. *)
Lemma get_group_id_cases group_name net :
  ((hostgroup_get net = Status 200 None
    \/ hostgroup_get net = Status 200 (Some []))
   /\ get_group_id_sent group_name net
      = [HostgroupGet group_name; HostgroupCreate group_name]
   /\ get_group_id group_name net = create_group group_name net)
  \/ ((forall result, hostgroup_get net = Status 200 result ->
         exists group_id others, result = Some (group_id :: others))
      /\ get_group_id_sent group_name net = [HostgroupGet group_name]
      /\ get_group_id group_name net
         = match hostgroup_get net with
           | Status code (Some (group_id :: _)) =>
               if Nat.eqb code 200 then Some group_id else None
           | _ => None
           end).
Proof.
  unfold get_group_id_sent, get_group_id, create_group_sent.
  destruct (hostgroup_get net) as [|code [[|group_id others]|]] eqn:Hget;
    [by right| | |];
    (destruct (Nat.eqb_spec code 200) as [->|Hcode];
     [|right; split; [intros result [= ? _]; done|done]]).
  - left. split; [by right|done].
  - right. split; [|done]. intros result [= <-]. by exists group_id, others.
  - left. split; [by left|done].
Qed.

(** X14. Group resolution always starts with [hostgroup.get] for the
    given name.  It sends [hostgroup.create] (for the same name, right
    after) exactly when the lookup answered status 200 without any group,
    and then returns what the creation gives.  A group that the lookup
    found is returned as it is and never created again; a lookup that
    raised or answered another status ends the resolution without a group
    id.  Whenever no creation is sent, the reply that a creation would
    get has no influence on the result. *)
Theorem X14_group_created_only_when_absent (group_name : string) (net : Remote) :
  (get_group_id_sent group_name net = [HostgroupGet group_name]
   \/ get_group_id_sent group_name net
      = [HostgroupGet group_name; HostgroupCreate group_name])
  /\ (HostgroupCreate group_name ∈ get_group_id_sent group_name net
      <-> hostgroup_get net = Status 200 None
          \/ hostgroup_get net = Status 200 (Some []))
  /\ (HostgroupCreate group_name ∈ get_group_id_sent group_name net ->
      get_group_id group_name net = create_group group_name net)
  /\ (forall code group_id others,
        hostgroup_get net = Status code (Some (group_id :: others)) ->
        get_group_id_sent group_name net = [HostgroupGet group_name]
        /\ get_group_id group_name net
           = if Nat.eqb code 200 then Some group_id else None)
  /\ (HostgroupCreate group_name ∉ get_group_id_sent group_name net ->
      forall net',
        hostgroup_get net' = hostgroup_get net ->
        get_group_id group_name net' = get_group_id group_name net).
Proof.
  destruct (get_group_id_cases group_name net)
    as [(Hget & Hsent & Hid)|(Hget & Hsent & Hid)]; rewrite Hsent.
  - split; [by right|]. split; [split; [done|intros _; apply create_in_get_create]|].
    split; [done|]. split.
    + intros code group_id others H. destruct Hget as [Hg|Hg]; congruence.
    + intros Hnot. destruct Hnot. apply create_in_get_create.
  - split; [by left|]. split; [|split; [|split]].
    + split; [by intros ?%create_not_in_get|].
      intros [H|H]; destruct (Hget _ H) as (? & ? & ?); done.
    + by intros ?%create_not_in_get.
    + intros code group_id others H. split; [done|]. by rewrite Hid, H.
    + intros _ net' Hsame.
      destruct (get_group_id_cases group_name net')
        as [(Hget' & _ & _)|(_ & _ & Hid')].
      * rewrite Hsame in Hget'.
        destruct Hget' as [H|H]; destruct (Hget _ H) as (? & ? & ?); done.
      * by rewrite Hid', Hid, Hsame.
Qed.

Lemma X14_witness :
  get_group_id "Net" remote_up = Some "7"
  /\ get_group_id_sent "Net" remote_up = [HostgroupGet "Net"].
Proof.
  destruct (X14_group_created_only_when_absent "Net" remote_up)
    as (_ & _ & _ & Hfound & _).
  destruct (Hfound 200 "7" []) as [Hsent Hid]; [reflexivity|].
  split; [exact Hid|exact Hsent].
Defined.

Lemma created_hosts_app sent sent' :
  created_hosts (sent ++ sent') = created_hosts sent ++ created_hosts sent'.
Proof.
  induction sent as [|r sent IH]; [done|]. destruct r; simpl; by rewrite ?IH.
Qed.

Lemma get_group_id_sent_facts group_name net :
  1 <= length (get_group_id_sent group_name net) <= 2
  /\ forallb record_request (get_group_id_sent group_name net) = true
  /\ created_hosts (get_group_id_sent group_name net) = [].
Proof.
  destruct (get_group_id_cases group_name net) as [(_ & -> & _)|(_ & -> & _)];
    simpl; repeat split; lia.
Qed.

(** How one record goes, from what the group resolution gives. *)
Lemma create_or_update_host_cases host_data net self :
  let hostname := fst (allocate_hostname host_data self) in
  let group_name := Py.strip (Team host_data) in
  (exists group_id,
     get_group_id group_name net = Some group_id /\ group_id <> ""
     /\ create_or_update_host_sent host_data net self
        = get_group_id_sent group_name net
          ++ [HostCreate (host_payload host_data hostname group_id)]
     /\ fst (create_or_update_host host_data net self)
        = accepted (host_create net))
  \/ ((get_group_id group_name net = None
       \/ get_group_id group_name net = Some "")
      /\ create_or_update_host_sent host_data net self
         = get_group_id_sent group_name net
      /\ fst (create_or_update_host host_data net self) = false).
Proof.
  intros hostname group_name. subst hostname group_name.
  rewrite create_or_update_host_ok.
  unfold create_or_update_host_sent, delivered.
  destruct (allocate_hostname host_data self) as [hostname self']. cbn [fst].
  destruct (get_group_id _ net) as [[|c group_id]|].
  - right. simpl. rewrite app_nil_r. split; [by right|done].
  - left. exists (String c group_id). simpl. done.
  - right. rewrite app_nil_r. split; [by left|done].
Qed.

Lemma create_or_update_host_sent_facts
    (host_data : InventoryRecord) (net : Remote) (self : Manager) :
  let sent := create_or_update_host_sent host_data net self in
  let hostname := fst (allocate_hostname host_data self) in
  let group_name := Py.strip (Team host_data) in
  (forall group_id,
     get_group_id group_name net = Some group_id -> group_id <> "" ->
     sent = get_group_id_sent group_name net
            ++ [HostCreate (host_payload host_data hostname group_id)])
  /\ (get_group_id group_name net = None
      \/ get_group_id group_name net = Some "" ->
      sent = get_group_id_sent group_name net
      /\ fst (create_or_update_host host_data net self) = false)
  /\ (fst (create_or_update_host host_data net self) = true ->
      created_hosts sent = [hostname])
  /\ (created_hosts sent = [] \/ created_hosts sent = [hostname])
  /\ 1 <= length sent <= 3
  /\ forallb record_request sent = true.
Proof.
  intros sent hostname group_name. subst sent hostname group_name.
  destruct (get_group_id_sent_facts (Py.strip (Team host_data)) net)
    as (Hlen & Hreq & Hnone).
  pose proof (create_or_update_host_cases host_data net self) as Hcases.
  cbv zeta in Hcases.
  destruct Hcases as [(group_id & Hid & Hne & -> & Hok)|(Hid & -> & Hok)];
    set (group_sent := get_group_id_sent _ net) in *; clearbody group_sent.
  - rewrite created_hosts_app, Hnone, length_app, forallb_app, Hreq. simpl.
    split; [intros g Hg _; congruence|].
    split; [intros [H|H]; congruence|].
    split; [done|]. split; [by right|]. split; [lia|done].
  - rewrite Hnone, Hreq, Hok.
    split; [intros g Hg Hg'; destruct Hid; congruence|].
    split; [done|]. split; [done|]. split; [by left|]. split; [lia|done].
Qed.

(** X15. For every record, [host.create] is sent only after the group
    resolution gave a non-empty group id, at most once, as the last
    request, with the allocated hostname, that group id and the fields of
    the record as inventory.  Without a group id nothing more is sent and
    the record fails.  A record sends between 1 and 3 requests, and never
    a login or a host lookup; a record that succeeds has sent its
    [host.create]. *)
Theorem X15_host_create_after_group
    (host_data : InventoryRecord) (net : Remote) (self : Manager) :
  let sent := create_or_update_host_sent host_data net self in
  let hostname := fst (allocate_hostname host_data self) in
  let group_name := Py.strip (Team host_data) in
  (forall group_id,
     get_group_id group_name net = Some group_id -> group_id <> "" ->
     sent = get_group_id_sent group_name net
            ++ [HostCreate (host_payload host_data hostname group_id)])
  /\ (get_group_id group_name net = None
      \/ get_group_id group_name net = Some "" ->
      sent = get_group_id_sent group_name net
      /\ fst (create_or_update_host host_data net self) = false)
  /\ (fst (create_or_update_host host_data net self) = true ->
      created_hosts sent = [hostname])
  /\ (created_hosts sent = [] \/ created_hosts sent = [hostname])
  /\ 1 <= length sent <= 3
  /\ forallb record_request sent = true.
Proof. apply create_or_update_host_sent_facts. Qed.

Lemma X15_witness :
  create_or_update_host_sent sample_record remote_up new_manager
  = [HostgroupGet "Net Ops";
     HostCreate (host_payload sample_record "Router-SN2345" "7")].
Proof.
  destruct (X15_host_create_after_group sample_record remote_up new_manager)
    as (Hsent & _).
  rewrite (Hsent "7"); [reflexivity|reflexivity|discriminate].
Defined.

(** X20. Processing a record, whatever the remote answers, changes the
    registry at the base hostname of that record only (every other base
    keeps its count, or stays absent), and changes the fallback counter
    only when the record lacks both serial number and MAC address. *)
Theorem X20_record_touches_one_entry
    (row : InventoryRecord) (net : Remote) (manager : Manager) (b : string) :
  let manager' := snd (create_or_update_host row net manager) in
  let identifier := fst (generate_identifier (S_N row) (MAC_ID row) manager) in
  (b <> base_hostname_of row identifier ->
   hostname_counters manager' !! b = hostname_counters manager !! b)
  /\ (fallback_device (S_N row, MAC_ID row) = false ->
      counter manager' = counter manager).
Proof.
  intros manager' identifier. subst manager' identifier.
  rewrite create_or_update_host_state. unfold allocate_hostname.
  destruct (generate_identifier (S_N row) (MAC_ID row) manager)
    as [identifier manager1] eqn:Hid.
  assert (H1 : manager1 = snd (generate_identifier (S_N row) (MAC_ID row) manager))
    by (by rewrite Hid).
  cbn [fst]. split.
  - intros Hb. rewrite generate_unique_hostname_registry.
    rewrite lookup_insert_ne by done. subst manager1.
    unfold generate_identifier. by destruct (_ && _); [|destruct (_ && _)].
  - intros Hused. rewrite generate_unique_hostname_counter. subst manager1.
    by rewrite generate_identifier_used.
Qed.

Lemma X20_witness :
  hostname_counters
    (snd (create_or_update_host sample_record remote_down new_manager))
    !! "Switch-SN0001"
  = hostname_counters new_manager !! "Switch-SN0001"
  /\ counter (snd (create_or_update_host sample_record remote_down new_manager))
     = counter new_manager.
Proof.
  destruct (X20_record_touches_one_entry sample_record remote_down new_manager
              "Switch-SN0001") as [Hregistry Hcounter].
  split.
  - apply Hregistry. discriminate.
  - apply Hcounter. reflexivity.
Defined.

(** ** Sync orchestrator: the requests of a run *)

Lemma allocated_hostnames_cons row rest manager :
  allocated_hostnames (row :: rest) manager
  = fst (allocate_hostname row manager)
      :: allocated_hostnames rest (snd (allocate_hostname row manager)).
Proof. simpl. by destruct (allocate_hostname row manager). Qed.

Lemma allocated_hostnames_length records manager :
  length (allocated_hostnames records manager) = length records.
Proof.
  revert manager. induction records as [|row rest IH]; intros manager; [done|].
  rewrite allocated_hostnames_cons. simpl. by rewrite IH.
Qed.

Lemma allocated_hostnames_valid records manager :
  Forall (fun h => h <> "" /\ all_chars hostname_char h = true)
    (allocated_hostnames records manager).
Proof.
  revert manager. induction records as [|row rest IH]; intros manager;
    [constructor|].
  rewrite allocated_hostnames_cons. constructor; [|apply IH].
  destruct (allocate_hostname_valid row manager) as (? & ? & _). done.
Qed.

Lemma process_devices_sent_facts records i net manager :
  let sent := process_devices_sent records i net manager in
  length records <= length sent <= 3 * length records
  /\ forallb record_request sent = true
  /\ created_hosts sent `sublist_of` allocated_hostnames records manager
  /\ length (List.filter id (outcomes records i net manager))
     <= length (created_hosts sent).
Proof.
  revert i manager. induction records as [|row rest IH]; intros i manager.
  { simpl. repeat split; [lia..|constructor |lia]. }
  cbn zeta. cbn [process_devices_sent].
  rewrite create_or_update_host_state, outcomes_cons, allocated_hostnames_cons.
  specialize (IH (S i) (snd (allocate_hostname row manager))). cbn zeta in IH.
  destruct IH as (Hlen & Hreq & Hsub & Hok).
  pose proof (create_or_update_host_sent_facts row (net i) manager) as Hrow.
  cbv zeta in Hrow. destruct Hrow as (_ & _ & Hcreated & Hhosts & Hlen1 & Hreq1).
  set (sent1 := create_or_update_host_sent row (net i) manager) in *.
  set (sent2 := process_devices_sent rest (S i) net _) in *.
  rewrite length_app, forallb_app, created_hosts_app, length_app, Hreq, Hreq1.
  cbn [length]. split; [lia|]. split; [done|]. split.
  - destruct Hhosts as [->| ->]; simpl.
    + by apply sublist_cons.
    + by apply sublist_skip.
  - destruct (fst (create_or_update_host row (net i) manager)) eqn:Hfst; simpl.
    + rewrite (Hcreated eq_refl). simpl. lia.
    + lia.
Qed.

(** X16. In the loop of [main] over n records, between n and 3n requests
    are sent, all of them group lookups, group creations or host
    creations (never a login, never a host lookup).  The hostnames of the
    [host.create] requests are, in order, hostnames allocated to the
    records (those of the records that obtained a group id), so each of
    them is non-empty and made of valid characters; and there are at
    least as many [host.create] requests as counted successes, and at
    most n. *)
Theorem X16_requests_of_a_run
    (records : list InventoryRecord) (net : nat -> Remote) :
  let sent := process_devices_sent records 0 net new_manager in
  length records <= length sent <= 3 * length records
  /\ forallb record_request sent = true
  /\ created_hosts sent `sublist_of` allocated_hostnames records new_manager
  /\ Forall (fun h => h <> "" /\ all_chars hostname_char h = true)
       (created_hosts sent)
  /\ success_count (fst (sync records net)) <= length (created_hosts sent)
  /\ length (created_hosts sent) <= length records.
Proof.
  intros sent. subst sent.
  pose proof (process_devices_sent_facts records 0 net new_manager) as H.
  cbv zeta in H. destruct H as (Hlen & Hreq & Hsub & Hok).
  split; [done|]. split; [done|]. split; [done|]. split; [|split].
  - apply Forall_forall. intros h Hh.
    pose proof (allocated_hostnames_valid records new_manager) as Hvalid.
    eapply Forall_forall in Hvalid; [exact Hvalid|].
    by eapply elem_of_sublist.
  - rewrite sync_spec. exact Hok.
  - apply sublist_length in Hsub.
    by rewrite allocated_hostnames_length in Hsub.
Qed.

(** ** Spreadsheet conversion *)

Lemma app_inj_r (a b t : string) : a +:+ t = b +:+ t -> a = b.
Proof.
  revert b. induction a as [|c a IH]; intros [|c' b] H.
  - done.
  - apply (f_equal String.length) in H.
    rewrite app_empty_l, app_cons in H. simpl in H.
    rewrite length_app_str in H. lia.
  - apply (f_equal String.length) in H.
    rewrite app_empty_l, app_cons in H. simpl in H.
    rewrite length_app_str in H. lia.
  - rewrite !app_cons in H. injection H as -> H. by rewrite (IH b H).
Qed.

(** A file that no sheet is named after is left as it was. *)
Lemma excel_to_csv_other {V} (render : V -> string) sheets files file :
  (forall sheet, sheet ∈ sheets -> file <> fst sheet +:+ ".csv") ->
  excel_to_csv render sheets files !! file = files !! file.
Proof.
  revert files. induction sheets as [|[name rows] sheets IH]; intros files Hfile;
    [done|].
  simpl. rewrite IH.
  - apply lookup_insert_ne. intros Heq.
    by apply (Hfile (name, rows)); [apply list_elem_of_here|].
  - intros sheet Hsheet. apply Hfile. by apply list_elem_of_further.
Qed.

(** X18. After the conversion of a workbook whose sheet names are
    distinct, the file named after a sheet holds the rows of that sheet,
    cell by cell, an empty cell being written as the empty text; the
    files that no sheet is named after are left as they were. *)
Theorem X18_sheet_files {V : Type} (render : V -> string)
    (sheets : list (string * list (list (option V))))
    (files : gmap string (list (list string))) :
  NoDup (map fst sheets) ->
  (forall name rows,
     (name, rows) ∈ sheets ->
     excel_to_csv render sheets files !! (name +:+ ".csv")
     = Some (map (map (cell_text render)) rows))
  /\ (forall file,
        (forall sheet, sheet ∈ sheets -> file <> fst sheet +:+ ".csv") ->
        excel_to_csv render sheets files !! file = files !! file).
Proof.
  intros Hnodup. split; [|apply excel_to_csv_other].
  revert files. induction sheets as [|[name0 rows0] sheets IH];
    intros files name rows Hin; [by apply elem_of_nil in Hin|].
  simpl in Hnodup. apply NoDup_cons in Hnodup as [Hfresh Hnodup].
  apply elem_of_cons in Hin as [[= -> ->]|Hin]; simpl.
  - rewrite excel_to_csv_other; [apply lookup_insert_eq|].
    intros [name' rows'] Hin' Heq%app_inj_r. simpl in Heq. subst name'.
    apply Hfresh. apply list_elem_of_In, in_map_iff.
    exists (name0, rows'). split; [done|]. by apply list_elem_of_In.
  - by apply IH.
Qed.

Lemma X18_witness :
  excel_to_csv (fun v : string => v)
    [("Devices", [[Some "1"; None; Some "Router"]]); ("Spare", [[None]])]
    ∅ !! "Devices.csv"
  = Some [["1"; ""; "Router"]].
Proof.
  destruct (X18_sheet_files (fun v : string => v)
              [("Devices", [[Some "1"; None; Some "Router"]]); ("Spare", [[None]])]
              ∅) as [Hsheet _].
  - simpl. constructor; [|constructor; [|constructor]].
    + intros H%list_elem_of_singleton. discriminate H.
    + intros H%elem_of_nil. exact H.
  - apply (Hsheet "Devices" [[Some "1"; None; Some "Router"]]). constructor.
Defined.

Lemma empty_cells_blank {V} (render : V -> string) (row : list (option V)) :
  Forall (fun c => c = None) row ->
  blank_row (map (cell_text render) row) = true.
Proof. induction 1 as [|c row -> Hrow IH]; [done|]. simpl. exact IH. Qed.

(** X19. A spreadsheet row whose cells are all empty never reaches the
    records: cleaning the file converted from a sheet gives the same
    rows, frame and records as cleaning the file converted from the sheet
    without that row. *)
Theorem X19_empty_sheet_rows_dropped {V : Type} (render : V -> string)
    (before after : list (list (option V))) (row : list (option V)) :
  Forall (fun c => c = None) row ->
  clean_rows (sheet_rows render (before ++ row :: after))
    = clean_rows (sheet_rows render (before ++ after))
  /\ cleaning (sheet_rows render (before ++ row :: after))
     = cleaning (sheet_rows render (before ++ after)).
Proof.
  intros Hrow.
  assert (H : clean_rows (sheet_rows render (before ++ row :: after))
              = clean_rows (sheet_rows render (before ++ after))).
  { unfold sheet_rows. rewrite !map_app, !clean_rows_app. f_equal.
    cbn [map clean_rows].
    by rewrite (blank_row_any_nonblank _ (empty_cells_blank render row Hrow)). }
  split; [exact H|]. unfold cleaning, clean_csv. by rewrite H.
Qed.

Lemma X19_witness :
  let header := map Some column_names in
  let device := map Some (record_cells sample_record) in
  cleaning (sheet_rows (fun v : string => v) ([header] ++ [None; None] :: [device]))
  = cleaning (sheet_rows (fun v : string => v) ([header] ++ [device])).
Proof.
  intros header device.
  apply (X19_empty_sheet_rows_dropped (fun v : string => v) [header] [device]
           [None; None]).
  repeat constructor.
Defined.

(** ** Sanity checks on concrete inputs *)

Example split_collapses_runs : Py.split "  a  b c " = ["a"; "b"; "c"].
Proof. reflexivity. Qed.

Example zfill_pads_to_four :
  Py.zfill 4 (Py.str_of_nat 7) = "0007" /\ Py.zfill 2 (Py.str_of_nat 123) = "123".
Proof. split; reflexivity. Qed.

Example base_hostname_sanitised :
  base_hostname_of sample_record "MCE:FF" = "Router-MCEFF".
Proof. reflexivity. Qed.

Example cleaning_sample :
  cleaning [["no"; "team"; "model"; "sn"; "mac"; "cond"; "to"; "own"; "x"];
            [" "; ""];
            [" 1 "; "Net  Ops"; "Router"; "ABC12345"; "NA"; ""; ""; ""; "z"]]
  = Some [{| Sl_no := "1"; Team := "Net Ops"; Device_model := "Router";
             S_N := "ABC12345"; MAC_ID := "UNKNOWN"; Condition := "Unknown";
             Assigned_to := "Unassigned"; Owner := "Unassigned" |}].
Proof. vm_compute. reflexivity. Qed.

Example cleaning_needs_8_columns :
  cleaning [["no"; "team"; "model"]; ["1"; "Net"; "Router"]] = None.
Proof. vm_compute. reflexivity. Qed.
